(** * dbt node runners: a shallow embedding of [dbt/node_runners.py]

    The runners compile one node of the graph, execute it against an
    adapter, classify the faults that come back and release the node's
    connection.  Python values are embedded as [PyVal], dictionaries as
    finite maps, exceptions as an [Outcome], and every call that leaves
    the module (adapter, compiler, logger, printer) is recorded in a trace
    so that the order and number of those calls can be stated. *)

From stdpp Require Import base gmap sets list strings pretty.
From Stdlib Require Import ZArith Lia.

Local Open Scope string_scope.
Local Open Scope list_scope.

(** ** Python values *)

(** The scalar values that occur as node fields, statuses and cells of a
    result set: [None], integers and strings.  On these, Python's [==] is
    structural equality. *)
Inductive PyVal : Type :=
| VNone
| VInt (z : Z)
| VStr (s : string).

#[global] Instance PyVal_eq_dec : EqDecision PyVal.
Proof. solve_decision. Defined.

Definition PyVal_encode (v : PyVal) : unit + (Z + string) :=
  match v with
  | VNone => inl tt
  | VInt z => inr (inl z)
  | VStr s => inr (inr s)
  end.

Definition PyVal_decode (x : unit + (Z + string)) : PyVal :=
  match x with
  | inl _ => VNone
  | inr (inl z) => VInt z
  | inr (inr s) => VStr s
  end.

#[global] Instance PyVal_countable : Countable PyVal.
Proof.
  apply (inj_countable' PyVal_encode PyVal_decode).
  by intros [].
Defined.

(** [v1 == v2] *)
Definition py_eq (v1 v2 : PyVal) : bool := bool_decide (v1 = v2).

(** [v is None] *)
Definition is_None (v : PyVal) : bool :=
  match v with VNone => true | _ => false end.

(** [str(v)], as used by [str.format] with a plain [{}] field. *)
Definition py_str (v : PyVal) : string :=
  match v with
  | VNone => "None"
  | VInt z => pretty z
  | VStr s => s
  end.

(** A node is a dictionary from field names to values; so is a profile. *)
Abbreviation Node := (gmap string PyVal).
Abbreviation Profile := (gmap string PyVal).

(** [d.get(k)]: [None] when the key is absent. *)
Definition dict_get (d : gmap string PyVal) (k : string) : PyVal :=
  default VNone (d !! k).

(** ASCII white space, as removed by [str.strip()]. *)
Definition is_space (c : Ascii.ascii) : bool :=
  let n := Ascii.nat_of_ascii c in
  (((9 <=? n) && (n <=? 13)) || ((28 <=? n) && (n <=? 32)))%nat.

Fixpoint lstrip (s : string) : string :=
  match s with
  | EmptyString => EmptyString
  | String c s' => if is_space c then lstrip s' else s
  end.

Definition strip (s : string) : string :=
  String.rev (lstrip (String.rev (lstrip s))).

(** The module constant; the backslash-newline in the source literal is a
    line continuation, and the trailing newline is stripped. *)
Definition INTERNAL_ERROR_STRING : string :=
  strip ("This is an error in dbt. Please try again. If "
         +:+ "the error persists, open an issue at "
         +:+ "https://github.com/fishtown-analytics/dbt"
         +:+ String (Ascii.ascii_of_nat 10) "").

(** ** Faults *)

(** The exceptions this module raises or handles.
    [CompilationException] and [RuntimeException] are the node faults of
    [dbt.exceptions] and carry a [node] attribute; [InternalException]
    and [NotImplementedException] are its other two classes used here.
    [RuntimeError], [IndexError], [KeyError] and [AttributeError] are
    Python's own; [OtherException] stands for any further subclass of
    [Exception] and [NonException] for what lies outside it
    ([KeyboardInterrupt], [SystemExit]).

    Modelled from the spec: [dbt.exceptions.missing_materialization] is
    not among the sources.  Its fault, [MissingMaterialization], names the
    node and the adapter kind; being a fault of the node's own
    configuration it is taken to be one of the node faults, caught with
    the compilation faults. *)
Inductive Exn : Type :=
| CompilationException (msg : string) (node : option Node)
| RuntimeException (msg : string) (node : option Node)
| MissingMaterialization (model : Node) (adapter_type : string)
| InternalException (msg : string)
| NotImplementedException
| RuntimeError (msg : string)
| IndexError
| KeyError (key : string)
| AttributeError (msg : string)
| OtherException (cls msg : string)
| NonException (cls : string).

(** [except (CompilationException, RuntimeException)] matches. *)
Definition is_catchable (e : Exn) : bool :=
  match e with
  | CompilationException _ _ | RuntimeException _ _
  | MissingMaterialization _ _ => true
  | _ => false
  end.

(** [except InternalException] matches. *)
Definition is_internal (e : Exn) : bool :=
  match e with InternalException _ => true | _ => false end.

(** [except Exception] matches. *)
Definition is_Exception (e : Exn) : bool :=
  match e with NonException _ => false | _ => true end.

(** [e.node] of a node fault. *)
Definition exn_node (e : Exn) : option Node :=
  match e with
  | CompilationException _ n | RuntimeException _ n => n
  | MissingMaterialization m _ => Some m
  | _ => None
  end.

(** [e.node = n] *)
Definition exn_set_node (e : Exn) (n : option Node) : Exn :=
  match e with
  | CompilationException msg _ => CompilationException msg n
  | RuntimeException msg _ => RuntimeException msg n
  | _ => e
  end.

(** [if e.node is None: e.node = n] *)
Definition exn_default_node (e : Exn) (n : option Node) : Exn :=
  match exn_node e with
  | None => exn_set_node e n
  | Some _ => e
  end.

Inductive Outcome (A : Type) : Type :=
| Return (a : A)
| Raise (e : Exn).
Arguments Return {A} a.
Arguments Raise {A} e.

Definition returns {A} (o : Outcome A) : Prop := ∃ a, o = Return a.

(** ** Calls that leave the module *)

Inductive Event : Type :=
| EReleaseConnection (profile : Profile) (name : PyVal)
| EGetExistingSchemas (profile : Profile)
| ECreateSchema (profile : Profile) (schema : PyVal)
| EClearTransaction (profile : Profile)
| EExecuteOne (profile : Profile) (sql model_name : PyVal) (auto_begin : bool)
| EExecuteAndFetch (profile : Profile) (sql model_name : PyVal)
    (auto_begin : bool)
| ECompilerCompileNode (node : Node)
| EGetRendered (template : PyVal)
| EWriteNode (node : Node) (target : PyVal) (payload : PyVal)
| EValidateHook (sql : PyVal)
| EGenerateContext (model : Node)
| EMacro (name : string)
| ELoggerDebug (msg : string)
| ELoggerInfo (msg : string)
| EPrintSkipLine (node : Node) (schema_name node_name : PyVal)
    (index total : nat).

#[global] Instance Event_eq_dec : EqDecision Event.
Proof. solve_decision. Defined.

Definition is_release (ev : Event) : bool :=
  match ev with EReleaseConnection _ _ => true | _ => false end.

Definition is_create_schema (ev : Event) : bool :=
  match ev with ECreateSchema _ _ => true | _ => false end.

Definition is_clear_transaction (ev : Event) : bool :=
  match ev with EClearTransaction _ => true | _ => false end.

Section Runners.

(** [World] is the state of everything outside the module (the database
    behind the adapter, the file system, the clock); [Existing] is the
    opaque [existing] argument handed through to [execute]; [Time] is what
    [time.time()] returns. *)
Context {World Existing Time : Type}.

(** ** RunModelResult *)

Record RunModelResult : Type := mkRunModelResult {
  node : option Node;
  error : option string;
  skip : bool;
  fail : option bool;
  status : PyVal;
  execution_time : Time
}.

Definition set_node (r : RunModelResult) (n : option Node) :=
  {| node := n; error := error r; skip := skip r; fail := fail r;
     status := status r; execution_time := execution_time r |}.
Definition set_error (r : RunModelResult) (e : option string) :=
  {| node := node r; error := e; skip := skip r; fail := fail r;
     status := status r; execution_time := execution_time r |}.
Definition set_skip (r : RunModelResult) (b : bool) :=
  {| node := node r; error := error r; skip := b; fail := fail r;
     status := status r; execution_time := execution_time r |}.
Definition set_status (r : RunModelResult) (s : PyVal) :=
  {| node := node r; error := error r; skip := skip r; fail := fail r;
     status := s; execution_time := execution_time r |}.
Definition set_execution_time (r : RunModelResult) (t : Time) :=
  {| node := node r; error := error r; skip := skip r; fail := fail r;
     status := status r; execution_time := t |}.

(** The properties [errored], [failed], [skipped]. *)
Definition errored (r : RunModelResult) : bool :=
  match error r with Some _ => true | None => false end.
Definition failed (r : RunModelResult) : option bool := fail r.
Definition skipped (r : RunModelResult) : bool := skip r.

(** ** Computations

    A computation starts in a world and ends with an outcome, the calls it
    made (oldest first) and the world it left behind. *)

Record Run (A : Type) : Type := mkRun {
  outcome : Outcome A;
  trace : list Event;
  world : World
}.
Arguments mkRun {A} _ _ _.
Arguments outcome {A} _.
Arguments trace {A} _.
Arguments world {A} _.

Definition M (A : Type) : Type := World → Run A.

Definition ret {A} (a : A) : M A := λ w, mkRun (Return a) [] w.

Definition raise {A} (e : Exn) : M A := λ w, mkRun (Raise e) [] w.

Definition bind {A B} (m : M A) (k : A → M B) : M B := λ w,
  let r := m w in
  match outcome r with
  | Return a =>
      let r' := k a (world r) in
      mkRun (outcome r') (trace r ++ trace r') (world r')
  | Raise e => mkRun (Raise e) (trace r) (world r)
  end.

(** [try: x = m  except Exception as e: h(e)  else: k(x)]: the handler
    guards [m] only, as the handlers of one [try] do not guard each
    other. *)
Definition try_except {A B} (m : M A) (h : Exn → M B) (k : A → M B) : M B :=
  λ w,
  let r := m w in
  let r' := match outcome r with
            | Return a => k a (world r)
            | Raise e => h e (world r)
            end in
  mkRun (outcome r') (trace r ++ trace r') (world r').

(** [try: m  finally: fin]: [fin] runs on every way out of [m]; a fault of
    [fin] itself takes the place of the outcome of [m]. *)
Definition try_finally {A} (m : M A) (fin : M unit) : M A := λ w,
  let r := m w in
  let rf := fin (world r) in
  mkRun (match outcome rf with
         | Return _ => outcome r
         | Raise e => Raise e
         end)
        (trace r ++ trace rf) (world rf).

(** A call to a collaborator: recorded, then answered by the world. *)
Definition extern {A} (ev : Event) (f : World → Outcome A * World) : M A :=
  λ w, let '(o, w') := f w in mkRun o [ev] w'.

(** A call that only reports (logger, printer). *)
Definition emit (ev : Event) : M unit := λ w, mkRun (Return tt) [ev] w.

Notation "'let!' x ':=' m 'in' k" := (bind m (λ x, k))
  (at level 10, x name, m at level 100, k at level 200,
   format "'[v' 'let!'  x  ':='  m  'in' '/' k ']'").
Notation "m ';;' k" := (bind m (λ _, k))
  (at level 100, k at level 200, right associativity).

(** [for x in xs: body(x)] *)
Fixpoint for_each {A} (xs : list A) (body : A → M unit) : M unit :=
  match xs with
  | [] => ret tt
  | x :: xs' => body x ;; for_each xs' body
  end.

(** [d[k]]: [KeyError] when the key is absent. *)
Definition dict_getitem (d : gmap string PyVal) (k : string) : M PyVal :=
  match d !! k with
  | Some v => ret v
  | None => raise (KeyError k)
  end.

(** ** Collaborators *)

(** [project.run_environment()] and [project.get('target-path')]. *)
Record Project : Type := {
  run_environment : Profile;
  target_path : PyVal
}.

(** The adapter capabilities this module consumes.  Each is answered by
    the world and may fault; [adapter.type()] is a constant of the
    adapter. *)
Record Adapter : Type := {
  adapter_type : string;
  release_connection_impl :
    Profile → PyVal → World → Outcome unit * World;
  get_existing_schemas_impl :
    Profile → World → Outcome (list PyVal) * World;
  create_schema_impl : Profile → PyVal → World → Outcome unit * World;
  clear_transaction_impl : Profile → World → Outcome PyVal * World;
  execute_one_impl :
    Profile → PyVal → PyVal → bool → World → Outcome unit * World;
  execute_and_fetch_impl :
    Profile → PyVal → PyVal → bool → World →
    Outcome (PyVal * list (list PyVal)) * World
}.

(** Modelled from the spec: [dbt.context.runtime] is not among the
    sources.  The rendering context is the place where a materialization
    macro deposits named result objects and from which
    [context['load_result'](name)] reads them back; a result object is an
    attribute dictionary. *)
Abbreviation RuntimeContext := (gmap string (gmap string PyVal)).

(** A macro of the graph; [generator(context)()] runs it, and what it
    deposits is seen in the context it leaves behind. *)
Record Macro : Type := {
  macro_name : string;
  generator : RuntimeContext → World → Outcome RuntimeContext * World
}.

(** The flat graph: [flat_graph['nodes']] in iteration order, and the
    macros. *)
Record FlatGraph : Type := {
  nodes : list (string * Node);
  macros : list (string * Macro)
}.

(** The context built by [CompileRunner.node_context]: two tracking values
    and three closures, which capture the adapter, the profile and the
    node's name. *)
Record NodeContext : Type := {
  ctx_run_started_at : PyVal;
  ctx_invocation_id : PyVal;
  ctx_adapter : Adapter;
  ctx_profile : Profile;
  ctx_node_name : PyVal
}.

(** What the module imports from the rest of dbt and from Python: the
    helpers of [dbt.utils], [dbt.compat], [dbt.ui.printer], [dbt.hooks],
    [dbt.flags], [dbt.tracking], the constants of [dbt.node_types], the
    compiler, the template renderer, the writer and the clock
    ([time_zero] is the [0] that [execution_time] defaults to).  None of
    them is among the sources, so they are parameters. *)
Class Dbt : Type := {
  time_zero : Time;
  time_sub : Time → Time → Time;
  NodeType_Model : PyVal;
  NodeType_Archive : PyVal;
  NodeType_Operation : PyVal;
  RunHookType_Start : PyVal;
  RunHookType_End : PyVal;
  get_materialization : Node → PyVal;
  is_type : Node → PyVal → bool;
  get_nodes_by_tags : list Node → list PyVal → PyVal → list Node;
  get_materialization_macro : FlatGraph → PyVal → string → option Macro;
  to_string : Exn → string;
  str_exn : Exn → string;
  red : string → string;
  time_time_impl : World → Time * World;
  Compiler_compile_node :
    Project → Node → FlatGraph → World → Outcome Node * World;
  get_rendered : PyVal → NodeContext → World → Outcome PyVal * World;
  write_node :
    Node → PyVal → string → PyVal → World → Outcome PyVal * World;
  get_hook_dict : PyVal → gmap string PyVal;
  validate_hook : gmap string PyVal → World → Outcome unit * World;
  STRICT_MODE : bool;
  generate :
    Node → Project → FlatGraph → World → Outcome RuntimeContext * World;
  run_started_at : PyVal;
  invocation_id : PyVal
}.

Context {dbt : Dbt}.

(** [RunModelResult(node)] with the defaults of [__init__]. *)
Definition RunModelResult_init (n : Node) : RunModelResult :=
  {| node := Some n; error := None; skip := false; fail := None;
     status := VNone; execution_time := time_zero |}.

Definition nl : string := String (Ascii.ascii_of_nat 10) "".

(** [time.time()] *)
Definition time_time : M Time := λ w,
  let '(t, w') := time_time_impl w in mkRun (Return t) [] w'.

(** [adapter.release_connection(profile, name)] *)
Definition release_connection (adapter : Adapter) (profile : Profile)
    (name : PyVal) : M unit :=
  extern (EReleaseConnection profile name)
         (release_connection_impl adapter profile name).

(** ** BaseRunner *)

(** A runner instance: the attributes set by [__init__] and the two
    methods that the subclasses supply. *)
Record Runner : Type := {
  self_project : Project;
  self_profile : Profile;
  self_adapter : Adapter;
  self_node : Node;
  self_node_index : nat;
  self_num_nodes : nat;
  compile : FlatGraph → M Node;
  execute : Node → Existing → FlatGraph → M RunModelResult
}.

Definition is_model (n : Node) : bool :=
  py_eq (dict_get n "resource_type") NodeType_Model.

Definition is_ephemeral (n : Node) : bool :=
  py_eq (get_materialization n) (VStr "ephemeral").

Definition is_ephemeral_model (n : Node) : bool :=
  is_model n && is_ephemeral n.

Definition run (self : Runner) (compiled_node : Node) (existing : Existing)
    (flat_graph : FlatGraph) : M RunModelResult :=
  execute self compiled_node existing flat_graph.

(** The [except] clauses of [safe_run], tried in order on a fault [e] of
    the guarded block; [result] is the value of the local variable at the
    moment of the fault. *)
Definition safe_run_except (self : Runner) (result : RunModelResult)
    (e : Exn) : M RunModelResult :=
  if is_catchable e then
    let e := exn_default_node e (node result) in
    let result := set_error result (Some (to_string e)) in
    let result := set_status result (VStr "ERROR") in
    ret result
  else if is_internal e then
    let build_path := dict_get (self_node self) "build_path" in
    let prefix := "Internal error executing " +:+ py_str build_path in
    let error := red prefix +:+ nl +:+ strip (str_exn e)
                 +:+ nl +:+ nl +:+ INTERNAL_ERROR_STRING in
    emit (ELoggerDebug error) ;;
    let result := set_error result (Some (to_string e)) in
    let result := set_status result (VStr "ERROR") in
    ret result
  else if is_Exception e then
    let prefix := "Unhandled error while executing "
                  +:+ py_str (dict_get (self_node self) "build_path") in
    let error := red prefix +:+ nl +:+ strip (str_exn e) in
    emit (ELoggerDebug error) ;;
    raise e
  else raise e.

(** The [try] block with its [except] clauses. *)
Definition safe_run_try (self : Runner) (flat_graph : FlatGraph)
    (existing : Existing) : M RunModelResult :=
  let result := RunModelResult_init (self_node self) in
  try_except (compile self flat_graph) (safe_run_except self result)
    (λ compiled_node,
       let result := set_node result (Some compiled_node) in
       if negb (is_ephemeral_model (self_node self)) then
         try_except (run self compiled_node existing flat_graph)
           (safe_run_except self result) ret
       else ret result).

(** The [finally] clause. *)
Definition safe_run_finally (self : Runner) : M unit :=
  let node_name := dict_get (self_node self) "name" in
  release_connection (self_adapter self) (self_profile self) node_name.

Definition safe_run (self : Runner) (flat_graph : FlatGraph)
    (existing : Existing) : M RunModelResult :=
  let! started := time_time in
  let! result := try_finally (safe_run_try self flat_graph existing)
                             (safe_run_finally self) in
  let! finished := time_time in
  ret (set_execution_time result (time_sub finished started)).

Definition on_skip (self : Runner) : M RunModelResult :=
  let schema_name := dict_get (self_node self) "schema" in
  let node_name := dict_get (self_node self) "name" in
  (if negb (is_ephemeral_model (self_node self)) then
     emit (EPrintSkipLine (self_node self) schema_name node_name
             (self_node_index self) (self_num_nodes self))
   else ret tt) ;;
  let node_result := set_skip (RunModelResult_init (self_node self)) true in
  ret node_result.

(** The loop of [get_model_schemas]; [schemas] is the set built so far. *)
Fixpoint get_model_schemas_loop (ns : list Node) (schemas : gset PyVal)
    : M (gset PyVal) :=
  match ns with
  | [] => ret schemas
  | n :: ns' =>
      if is_model n && negb (is_ephemeral n) then
        let! s := dict_getitem n "schema" in
        get_model_schemas_loop ns' (schemas ∪ {[ s ]})
      else get_model_schemas_loop ns' schemas
  end.

Definition get_model_schemas (flat_graph : FlatGraph) : M (gset PyVal) :=
  get_model_schemas_loop (map snd (nodes flat_graph)) ∅.

(** [BaseRunner] itself: [execute] is not implemented and there is no
    [compile] method. *)
(** The same runner with another [execute] method. *)
Definition with_execute (self : Runner)
    (f : Node → Existing → FlatGraph → M RunModelResult) : Runner :=
  {| self_project := self_project self;
     self_profile := self_profile self;
     self_adapter := self_adapter self;
     self_node := self_node self;
     self_node_index := self_node_index self;
     self_num_nodes := self_num_nodes self;
     compile := compile self;
     execute := f |}.

Definition BaseRunner (project : Project) (adapter : Adapter) (n : Node)
    (node_index num_nodes : nat) : Runner :=
  {| self_project := project;
     self_profile := run_environment project;
     self_adapter := adapter;
     self_node := n;
     self_node_index := node_index;
     self_num_nodes := num_nodes;
     compile := λ _, raise (AttributeError "compile");
     execute := λ _ _ _, raise NotImplementedException |}.

(** ** CompileRunner *)

(** [l[i]]: [IndexError] when out of range. *)
Definition list_getitem {A} (l : list A) (i : nat) : M A :=
  match l !! i with
  | Some x => ret x
  | None => raise IndexError
  end.

Definition dquote : string := String (Ascii.ascii_of_nat 34) "".

Definition node_context (adapter : Adapter) (project : Project) (n : Node)
    : NodeContext :=
  let profile := run_environment project in
  {| ctx_run_started_at := run_started_at;
     ctx_invocation_id := invocation_id;
     ctx_adapter := adapter;
     ctx_profile := profile;
     ctx_node_name := dict_get n "name" |}.

Definition inject_runtime_config (adapter : Adapter) (project : Project)
    (n : Node) : M Node :=
  let wrapped_sql := dict_get n "wrapped_sql" in
  let context := node_context adapter project n in
  let! sql := extern (EGetRendered wrapped_sql)
                     (get_rendered wrapped_sql context) in
  ret (<["wrapped_sql" := sql]> n).

Definition compile_node (adapter : Adapter) (project : Project) (n : Node)
    (flat_graph : FlatGraph) : M Node :=
  let! n := extern (ECompilerCompileNode n)
                   (Compiler_compile_node project n flat_graph) in
  let! n := inject_runtime_config adapter project n in
  let! injected_sql := dict_getitem n "injected_sql" in
  if negb (is_None injected_sql)
     && negb (is_type n (NodeType_Archive)) then
    let! unique_id := dict_getitem n "unique_id" in
    emit (ELoggerDebug ("Writing injected SQL for node " +:+ dquote
                        +:+ py_str unique_id +:+ dquote)) ;;
    let! injected_sql := dict_getitem n "injected_sql" in
    let! written_path :=
      extern (EWriteNode n (target_path project) injected_sql)
             (write_node n (target_path project) "compiled"
                         injected_sql) in
    ret (<["build_path" := written_path]> n)
  else ret n.

Definition CompileRunner (project : Project) (adapter : Adapter) (n : Node)
    (node_index num_nodes : nat) : Runner :=
  {| self_project := project;
     self_profile := run_environment project;
     self_adapter := adapter;
     self_node := n;
     self_node_index := node_index;
     self_num_nodes := num_nodes;
     compile := λ flat_graph, compile_node adapter project n flat_graph;
     execute := λ compiled_node _ _,
       ret (RunModelResult_init compiled_node) |}.

(** ** ModelRunner *)

(** The first loop of [run_hooks]: compile every hook and collect its hook
    dictionary; [compiled_hooks] is the list built so far. *)
Fixpoint run_hooks_compile (adapter : Adapter) (project : Project)
    (flat_graph : FlatGraph) (hooks : list Node)
    (compiled_hooks : list (gmap string PyVal))
    : M (list (gmap string PyVal)) :=
  match hooks with
  | [] => ret compiled_hooks
  | hook :: hooks' =>
      let! compiled := compile_node adapter project hook flat_graph in
      let! statement := dict_getitem compiled "wrapped_sql" in
      let hook_dict := get_hook_dict statement in
      run_hooks_compile adapter project flat_graph hooks'
        (compiled_hooks ++ [hook_dict])
  end.

(** The body of the second loop of [run_hooks], for one hook. *)
Definition run_hooks_body (adapter : Adapter) (profile : Profile)
    (conn_name : PyVal) (hook : gmap string PyVal) : M unit :=
  (if STRICT_MODE then
     extern (EValidateHook (dict_get hook "sql")) (validate_hook hook)
   else ret tt) ;;
  let sql := default (VStr "") (hook !! "sql") in
  extern (EExecuteOne profile sql conn_name false)
         (execute_one_impl adapter profile sql conn_name false) ;;
  release_connection adapter profile conn_name.

Definition run_hooks (project : Project) (adapter : Adapter)
    (flat_graph : FlatGraph) (hook_type : PyVal) : M unit :=
  let profile := run_environment project in
  let nodes := map snd (nodes flat_graph) in
  let hooks := get_nodes_by_tags nodes [hook_type]
                                 (NodeType_Operation) in
  let! conn_name := extern (EClearTransaction profile)
                           (clear_transaction_impl adapter profile) in
  let! compiled_hooks :=
    run_hooks_compile adapter project flat_graph hooks [] in
  for_each compiled_hooks (run_hooks_body adapter profile conn_name).

(** [except dbt.exceptions.RuntimeException] matches. *)
Definition is_RuntimeException (e : Exn) : bool :=
  match e with RuntimeException _ _ => true | _ => false end.

Definition safe_run_hooks (project : Project) (adapter : Adapter)
    (flat_graph : FlatGraph) (hook_type : PyVal) : M unit :=
  try_except (run_hooks project adapter flat_graph hook_type)
    (λ e,
       if is_RuntimeException e then
         emit (ELoggerInfo ("Database error while running "
                            +:+ py_str hook_type)) ;;
         raise e
       else raise e)
    ret.

Definition create_schemas (project : Project) (adapter : Adapter)
    (flat_graph : FlatGraph) : M unit :=
  let profile := run_environment project in
  let! required_schemas := get_model_schemas flat_graph in
  let! existing := extern (EGetExistingSchemas profile)
                          (get_existing_schemas_impl adapter profile) in
  let existing_schemas : gset PyVal := list_to_set existing in
  for_each (elements (required_schemas ∖ existing_schemas))
    (λ schema,
       extern (ECreateSchema profile schema)
              (create_schema_impl adapter profile schema)).

Definition ModelRunner_before_run (project : Project) (adapter : Adapter)
    (flat_graph : FlatGraph) : M unit :=
  create_schemas project adapter flat_graph ;;
  safe_run_hooks project adapter flat_graph (RunHookType_Start).

(** Modelled from the spec: [dbt.exceptions.missing_materialization] is
    not among the sources.  It fails with a MissingMaterialization fault
    that names the node and the adapter kind. *)
Definition missing_materialization {A} (model : Node) (adapter_type : string)
    : M A :=
  raise (MissingMaterialization model adapter_type).

(** [obj.name] on a result object, [None] included. *)
Definition getattr (obj : option (gmap string PyVal)) (name : string)
    : M PyVal :=
  match obj with
  | Some d =>
      match d !! name with
      | Some v => ret v
      | None => raise (AttributeError name)
      end
  | None => raise (AttributeError name)
  end.

Definition ModelRunner_execute (project : Project) (adapter : Adapter)
    (model : Node) (existing : Existing) (flat_graph : FlatGraph)
    : M RunModelResult :=
  let! context := extern (EGenerateContext model)
                         (generate model project flat_graph) in
  let materialization_macro :=
    get_materialization_macro flat_graph
      (get_materialization model) (adapter_type adapter) in
  match materialization_macro with
  | None => missing_materialization model (adapter_type adapter)
  | Some macro =>
      let! context := extern (EMacro (macro_name macro))
                             (generator macro context) in
      let result := context !! "main" in
      let! result_status := getattr result "status" in
      ret (set_status (RunModelResult_init model) result_status)
  end.

Definition ModelRunner (project : Project) (adapter : Adapter) (n : Node)
    (node_index num_nodes : nat) : Runner :=
  {| self_project := project;
     self_profile := run_environment project;
     self_adapter := adapter;
     self_node := n;
     self_node_index := node_index;
     self_num_nodes := num_nodes;
     compile := λ flat_graph, compile_node adapter project n flat_graph;
     execute := ModelRunner_execute project adapter |}.

(** ** TestRunner *)

Definition bad_test_message (name : PyVal) (num_rows num_cols : nat)
    : string :=
  "Bad test " +:+ py_str name +:+ ": Returned " +:+ pretty num_rows
  +:+ " rows and " +:+ pretty num_cols +:+ " cols".

Definition execute_test (adapter : Adapter) (profile : Profile)
    (test : Node) : M PyVal :=
  let! fetched :=
    extern (EExecuteAndFetch profile (dict_get test "wrapped_sql")
                             (dict_get test "name") true)
           (execute_and_fetch_impl adapter profile
              (dict_get test "wrapped_sql") (dict_get test "name") true) in
  let rows := snd fetched in
  let num_rows := length rows in
  (if (1 <? num_rows)%nat then
     let! row0 := list_getitem rows 0 in
     let num_cols := length row0 in
     raise (RuntimeError
              (bad_test_message (dict_get test "name") num_rows num_cols))
   else ret tt) ;;
  let! row0 := list_getitem rows 0 in
  list_getitem row0 0.

Definition TestRunner_execute (adapter : Adapter) (profile : Profile)
    (test : Node) (existing : Existing) (flat_graph : FlatGraph)
    : M RunModelResult :=
  let! test_status := execute_test adapter profile test in
  ret (set_status (RunModelResult_init test) test_status).

Definition TestRunner (project : Project) (adapter : Adapter) (n : Node)
    (node_index num_nodes : nat) : Runner :=
  {| self_project := project;
     self_profile := run_environment project;
     self_adapter := adapter;
     self_node := n;
     self_node_index := node_index;
     self_num_nodes := num_nodes;
     compile := λ flat_graph, compile_node adapter project n flat_graph;
     execute := TestRunner_execute adapter (run_environment project) |}.

(** ** ArchiveRunner: [ModelRunner] with another description and result
    line. *)
Definition ArchiveRunner (project : Project) (adapter : Adapter) (n : Node)
    (node_index num_nodes : nat) : Runner :=
  ModelRunner project adapter n node_index num_nodes.

End Runners.

Arguments Adapter : clear implicits.
Arguments Macro : clear implicits.
Arguments FlatGraph : clear implicits.
Arguments NodeContext : clear implicits.
Arguments Dbt : clear implicits.
Arguments RunModelResult : clear implicits.
Arguments Run : clear implicits.
Arguments M : clear implicits.
Arguments Runner : clear implicits.
Arguments mkRun {World A} _ _ _.
Arguments outcome {World A} _.
Arguments trace {World A} _.
Arguments world {World A} _.

(** * Test doubles

    Concrete collaborators on which the runners can be evaluated: the
    world is a tick counter read by the clock, and the collaborators
    answer from fixed tables. *)
Module Doubles.

Definition assoc {A} (k : string) (l : list (string * A)) : option A :=
  snd <$> List.find (λ kv, bool_decide (fst kv = k)) l.

(** An adapter that never faults: it reports [existing] as the schemas
    present and [rows] as the result of every fetch. *)
Definition adapter_ok (existing : list PyVal) (rows : list (list PyVal))
    : Adapter nat :=
  {| adapter_type := "postgres";
     release_connection_impl := λ _ _ w, (Return tt, w);
     get_existing_schemas_impl := λ _ w, (Return existing, w);
     create_schema_impl := λ _ _ w, (Return tt, w);
     clear_transaction_impl := λ _ w, (Return (VStr "master"), w);
     execute_one_impl := λ _ _ _ _ w, (Return tt, w);
     execute_and_fetch_impl := λ _ _ _ _ w, (Return (VStr "SELECT", rows), w)
  |}.

Definition exn_message (e : Exn) : string :=
  match e with
  | CompilationException msg _ | RuntimeException msg _
  | InternalException msg | RuntimeError msg | AttributeError msg
  | OtherException _ msg => msg
  | MissingMaterialization _ ty => "No materialization for adapter " +:+ ty
  | NotImplementedException => "NotImplementedException"
  | IndexError => "index out of range"
  | KeyError k => k
  | NonException cls => cls
  end.

(** The rest of dbt: the compiler answers [compiled n] for a node [n], and
    the materialization is read from the node's ["materialized"] field. *)
Definition dbt_double (compiled : Node → Outcome Node) : Dbt nat Z :=
  {| time_zero := 0%Z;
     time_sub := Z.sub;
     NodeType_Model := VStr "model";
     NodeType_Archive := VStr "archive";
     NodeType_Operation := VStr "operation";
     RunHookType_Start := VStr "on-run-start";
     RunHookType_End := VStr "on-run-end";
     get_materialization := λ n, dict_get n "materialized";
     is_type := λ n t, py_eq (dict_get n "resource_type") t;
     get_nodes_by_tags := λ ns tags t,
       List.filter (λ n, py_eq (dict_get n "resource_type") t
                         && bool_decide (dict_get n "tags" ∈ tags)) ns;
     get_materialization_macro := λ g mat ty,
       assoc (py_str mat +:+ "_" +:+ ty) (macros g);
     to_string := exn_message;
     str_exn := exn_message;
     red := λ s, s;
     time_time_impl := λ w, (Z.of_nat w, S w);
     Compiler_compile_node := λ _ n _ w, (compiled n, w);
     get_rendered := λ sql _ w, (Return sql, w);
     write_node := λ _ _ _ _ w, (Return (VStr "target/compiled/x.sql"), w);
     get_hook_dict := λ statement, {[ "sql" := statement ]};
     validate_hook := λ _ w, (Return tt, w);
     STRICT_MODE := false;
     generate := λ _ _ _ w, (Return ∅, w);
     run_started_at := VStr "2018-01-01";
     invocation_id := VStr "0000" |}.

Definition compiler_ok (n : Node) : Outcome Node := Return n.

Definition compiler_faulty (e : Exn) (n : Node) : Outcome Node := Raise e.

Definition project0 : Project :=
  {| run_environment := {[ "type" := VStr "postgres" ]};
     target_path := VStr "target" |}.

Definition model_node (name schema materialized : string) : Node :=
  {[ "resource_type" := VStr "model";
     "name" := VStr name;
     "schema" := VStr schema;
     "materialized" := VStr materialized;
     "wrapped_sql" := VStr ("select * from " +:+ name);
     "injected_sql" := VNone;
     "unique_id" := VStr ("model." +:+ name) ]}.

Definition hook_node (name sql : string) : Node :=
  {[ "resource_type" := VStr "operation";
     "name" := VStr name;
     "tags" := VStr "on-run-start";
     "wrapped_sql" := VStr sql;
     "injected_sql" := VNone;
     "unique_id" := VStr ("operation." +:+ name) ]}.

Definition test_node (name sql : string) : Node :=
  {[ "resource_type" := VStr "test";
     "name" := VStr name;
     "schema" := VStr "analytics";
     "wrapped_sql" := VStr sql;
     "injected_sql" := VNone;
     "unique_id" := VStr ("test." +:+ name) ]}.

Definition graph_of (ns : list (string * Node)) : FlatGraph nat :=
  {| nodes := ns; macros := [] |}.

Definition graph0 : FlatGraph nat := graph_of [].

(** The rest of dbt with a compiler that hands every node back. *)
Definition dbt_ok : Dbt nat Z := dbt_double compiler_ok.

(** A catchable fault that carries no node, and the rest of dbt with a
    compiler that raises it. *)
Definition boom : Exn := CompilationException "boom" None.
Definition dbt_boom : Dbt nat Z := dbt_double (compiler_faulty boom).

Definition node_a : Node := model_node "a" "analytics" "table".
Definition node_e : Node := model_node "e" "analytics" "ephemeral".
Definition node_t : Node := test_node "t" "select count(*) from a".

(** A materialization macro that deposits the status ["CREATE TABLE"]
    under ["main"], and a graph that registers it for tables on the
    adapter of the doubles. *)
Definition table_macro : Macro nat :=
  {| macro_name := "materialization_table_postgres";
     generator := λ ctx w,
       (Return (<["main" := {[ "status" := VStr "CREATE TABLE" ]}]> ctx), w)
  |}.

Definition graph_with_macro : FlatGraph nat :=
  {| nodes := [("model.a", node_a)];
     macros := [("table_postgres", table_macro)] |}.

(** Three models, one of them ephemeral, in three schemas. *)
Definition graph_xyz : FlatGraph nat :=
  graph_of [("model.a", model_node "a" "x" "table");
            ("model.b", model_node "b" "y" "view");
            ("model.c", model_node "c" "z" "ephemeral")].

(** Two hooks to run at the start. *)
Definition hook1 : Node := hook_node "h1" "grant select on a".
Definition hook2 : Node := hook_node "h2" "grant select on b".
Definition graph_two_hooks : FlatGraph nat :=
  graph_of [("operation.h1", hook1); ("operation.h2", hook2)].

(** Runners over the doubles. *)
Definition faulty_compile_runner : Runner nat unit Z :=
  CompileRunner (dbt:=dbt_boom) project0 (adapter_ok [] []) node_a 0 1.

Definition ephemeral_runner : Runner nat unit Z :=
  ModelRunner (dbt:=dbt_ok) project0 (adapter_ok [] []) node_e 0 1.

Definition two_rows_runner : Runner nat unit Z :=
  TestRunner (dbt:=dbt_ok) project0
    (adapter_ok [] [[VInt 3]; [VInt 4]]) node_t 0 1.

End Doubles.

(** * Properties *)

Section Properties.

Context {World Existing Time : Type} {dbt : Dbt World Time}.

Implicit Types (self : Runner World Existing Time) (g : FlatGraph World).
Implicit Types (ex : Existing) (w : World) (e : Exn) (ev : Event).
Implicit Types (r result : RunModelResult Time) (n cn : Node).

(** The world in which the guarded block of [safe_run] starts: the one the
    first reading of the clock leaves behind. *)
Definition after_clock w : World := snd (time_time_impl w).

(** The release call of [safe_run]. *)
Definition release_of self : Event :=
  EReleaseConnection (self_profile self) (dict_get (self_node self) "name").

(** The adapter answers the release of this runner's connection without a
    fault, in every world. *)
Definition release_returns self : Prop :=
  ∀ w, returns (fst (release_connection_impl (self_adapter self)
                       (self_profile self)
                       (dict_get (self_node self) "name") w)).

Definition no_release (l : list Event) : Prop :=
  Forall (λ ev, is_release ev = false) l.

Definition skip_and_error r : Prop := skip r = true ∧ error r ≠ None.

(** What [execute] returns is never both skipped and in error. *)
Definition execute_consistent self g ex : Prop :=
  ∀ cn w r, outcome (execute self cn ex g w) = Return r →
            ¬ skip_and_error r.

(** A result as the runners build it: the node it was given, no error,
    not skipped. *)
Definition fresh_result_of r cn : Prop :=
  node r = Some cn ∧ error r = None ∧ skip r = false.

(** The calls that compiling and running hooks can make; a hook statement
    counts only when it is sent with [auto_begin=False]. *)
Definition hook_phase_event ev : bool :=
  match ev with
  | EClearTransaction _ | ECompilerCompileNode _ | EGetRendered _
  | EWriteNode _ _ _ | ELoggerDebug _ | ELoggerInfo _ | EValidateHook _
  | EReleaseConnection _ _ => true
  | EExecuteOne _ _ _ auto_begin => negb auto_begin
  | _ => false
  end.

(** The calls of [compile_node]: the compiler, the renderer, the logger
    and the writer. *)
Definition compile_event ev : bool :=
  match ev with
  | ECompilerCompileNode _ | EGetRendered _ | EWriteNode _ _ _
  | ELoggerDebug _ => true
  | _ => false
  end.

(** The required schemas in the words of the specification: the schemas
    of the nodes of the graph that are models and not ephemeral. *)
Definition required_schema g (s : PyVal) : Prop :=
  ∃ n, n ∈ map snd (nodes g) ∧ is_model n = true
       ∧ is_ephemeral n = false ∧ n !! "schema" = Some s.

(** Every non-ephemeral model of the graph has a ["schema"] entry, so that
    [node['schema']] does not fault. *)
Definition models_have_schema g : Prop :=
  ∀ n, n ∈ map snd (nodes g) → is_model n = true →
       is_ephemeral n = false → is_Some (n !! "schema").

(** The runners that the classes of the module build. *)
Inductive module_runner : Runner World Existing Time → Prop :=
| module_BaseRunner project adapter n i num :
    module_runner (BaseRunner project adapter n i num)
| module_CompileRunner project adapter n i num :
    module_runner (CompileRunner project adapter n i num)
| module_ModelRunner project adapter n i num :
    module_runner (ModelRunner project adapter n i num)
| module_TestRunner project adapter n i num :
    module_runner (TestRunner project adapter n i num)
| module_ArchiveRunner project adapter n i num :
    module_runner (ArchiveRunner project adapter n i num).

Ltac unfold_run :=
  unfold bind, try_except, try_finally, extern, emit, ret, raise,
    time_time in *.

(** ** The [except] clauses *)

Lemma safe_run_except_catchable self result e w :
  is_catchable e = true →
  safe_run_except self result e w =
  mkRun (Return (set_status
                   (set_error result
                      (Some (to_string (exn_default_node e (node result)))))
                   (VStr "ERROR")))
        [] w.
Proof. intros He. unfold safe_run_except. by rewrite He. Qed.

Lemma safe_run_except_trace self result e w :
  no_release (trace (safe_run_except self result e w)).
Proof.
  unfold safe_run_except, no_release.
  destruct (is_catchable e); [by constructor|].
  destruct (is_internal e); [unfold_run; simpl; by repeat constructor|].
  destruct (is_Exception e); unfold_run; simpl; by repeat constructor.
Qed.


(** Whatever an [except] clause returns is the local [result] with the
    fault's text and the status ["ERROR"]: node and skip flag are kept. *)
Lemma safe_run_except_returns self result e w r :
  outcome (safe_run_except self result e w) = Return r →
  node r = node result ∧ skip r = skip result ∧ fail r = fail result
  ∧ status r = VStr "ERROR" ∧ ∃ msg, error r = Some msg.
Proof.
  unfold safe_run_except.
  destruct (is_catchable e).
  { intros [= <-]. simpl. eauto 10. }
  destruct (is_internal e).
  { unfold_run. simpl. intros [= <-]. simpl. eauto 10. }
  destruct (is_Exception e); unfold_run; simpl; discriminate.
Qed.

(** A fault that an [except] clause lets through is the fault it was
    given, and it is not a catchable or internal one. *)
Lemma safe_run_except_raises self result e w e' :
  outcome (safe_run_except self result e w) = Raise e' →
  e' = e ∧ is_catchable e = false ∧ is_internal e = false.
Proof.
  unfold safe_run_except.
  destruct (is_catchable e); [discriminate|].
  destruct (is_internal e); [unfold_run; simpl; discriminate|].
  destruct (is_Exception e); unfold_run; simpl; by intros [= <-].
Qed.

(** ** The guarded block of [safe_run], path by path *)

Lemma safe_run_try_compile_fault self g ex w e :
  outcome (compile self g w) = Raise e →
  let rc := compile self g w in
  let h := safe_run_except self (RunModelResult_init (self_node self)) e
             (world rc) in
  safe_run_try self g ex w = mkRun (outcome h) (trace rc ++ trace h) (world h).
Proof.
  intros Hc. unfold safe_run_try, try_except. by rewrite Hc.
Qed.

Lemma safe_run_try_ephemeral self g ex w cn :
  outcome (compile self g w) = Return cn →
  is_ephemeral_model (self_node self) = true →
  let rc := compile self g w in
  safe_run_try self g ex w =
  mkRun (Return (set_node (RunModelResult_init (self_node self)) (Some cn)))
        (trace rc) (world rc).
Proof.
  intros Hc He. unfold safe_run_try, try_except.
  rewrite Hc, He. simpl. by rewrite app_nil_r.
Qed.

Lemma safe_run_try_run_returns self g ex w cn r :
  outcome (compile self g w) = Return cn →
  is_ephemeral_model (self_node self) = false →
  outcome (run self cn ex g (world (compile self g w))) = Return r →
  let rc := compile self g w in
  let rx := run self cn ex g (world rc) in
  safe_run_try self g ex w = mkRun (Return r) (trace rc ++ trace rx) (world rx).
Proof.
  intros Hc He Hx. unfold safe_run_try, try_except.
  rewrite Hc, He. simpl. rewrite Hx. simpl. by rewrite app_nil_r.
Qed.

Lemma safe_run_try_run_fault self g ex w cn e :
  outcome (compile self g w) = Return cn →
  is_ephemeral_model (self_node self) = false →
  outcome (run self cn ex g (world (compile self g w))) = Raise e →
  let rc := compile self g w in
  let rx := run self cn ex g (world rc) in
  let h := safe_run_except self
             (set_node (RunModelResult_init (self_node self)) (Some cn)) e
             (world rx) in
  safe_run_try self g ex w =
  mkRun (outcome h) (trace rc ++ trace rx ++ trace h) (world h).
Proof.
  intros Hc He Hx. unfold safe_run_try, try_except.
  rewrite Hc, He. simpl. by rewrite Hx.
Qed.

(** The calls of the guarded block are those of [compile], those of [run]
    and log lines: if [compile] and [execute] release nothing, nothing is
    released inside the block. *)
Lemma safe_run_try_no_release self g ex w :
  (∀ w', no_release (trace (compile self g w'))) →
  (∀ cn w', no_release (trace (execute self cn ex g w'))) →
  no_release (trace (safe_run_try self g ex w)).
Proof.
  intros Hcomp Hexec.
  destruct (outcome (compile self g w)) as [cn|e] eqn:Hc.
  - destruct (is_ephemeral_model (self_node self)) eqn:He.
    + rewrite (safe_run_try_ephemeral _ _ _ _ _ Hc He). apply Hcomp.
    + destruct (outcome (run self cn ex g (world (compile self g w))))
        as [r|e] eqn:Hx.
      * rewrite (safe_run_try_run_returns _ _ _ _ _ _ Hc He Hx). simpl.
        apply Forall_app; split; [apply Hcomp | apply Hexec].
      * rewrite (safe_run_try_run_fault _ _ _ _ _ _ Hc He Hx). simpl.
        repeat (apply Forall_app; split);
          [apply Hcomp | apply Hexec | apply safe_run_except_trace].
  - rewrite (safe_run_try_compile_fault _ _ _ _ _ Hc). simpl.
    apply Forall_app; split; [apply Hcomp | apply safe_run_except_trace].
Qed.

(** ** [safe_run] around the guarded block *)

(** On every way out, the calls of [safe_run] are those of the guarded
    block followed by one release of the node's connection. *)
Lemma safe_run_trace self g ex w :
  trace (safe_run self g ex w) =
  trace (safe_run_try self g ex (after_clock w)) ++ [release_of self].
Proof.
  unfold safe_run, safe_run_finally, release_connection, after_clock,
    release_of.
  generalize (safe_run_try self g ex). intros body.
  unfold_run.
  destruct (time_time_impl w) as [t0 w0]. simpl.
  destruct (release_connection_impl _ _ _ _) as [[[]|e] w1]; simpl.
  - destruct (outcome (body w0)); simpl; [|done].
    destruct (time_time_impl w1). simpl. by rewrite app_nil_r.
  - done.
Qed.

(** When the release returns, [safe_run] returns what the guarded block
    returned, with the elapsed time filled in ... *)
Lemma safe_run_returns_of_try self g ex w r :
  release_returns self →
  outcome (safe_run_try self g ex (after_clock w)) = Return r →
  ∃ dt, outcome (safe_run self g ex w) = Return (set_execution_time r dt).
Proof.
  intros Hrel Ht.
  unfold safe_run, safe_run_finally, release_connection, after_clock in *.
  revert Ht. generalize (safe_run_try self g ex). intros body Ht.
  unfold_run.
  destruct (time_time_impl w) as [t0 w0]. simpl in *.
  destruct (Hrel (world (body w0))) as [[] Ho].
  destruct (release_connection_impl _ _ _ _) as [o w1]. simpl in *.
  subst o. simpl. rewrite Ht. simpl.
  destruct (time_time_impl w1) as [t1 w2]. simpl. eauto.
Qed.

(** ... and it returns nothing else. *)
Lemma safe_run_returns_inv self g ex w r :
  outcome (safe_run self g ex w) = Return r →
  ∃ r0 dt, outcome (safe_run_try self g ex (after_clock w)) = Return r0
           ∧ r = set_execution_time r0 dt.
Proof.
  unfold safe_run, safe_run_finally, release_connection, after_clock.
  generalize (safe_run_try self g ex). intros body.
  unfold_run.
  destruct (time_time_impl w) as [t0 w0]. simpl.
  destruct (release_connection_impl _ _ _ _) as [[[]|e] w1]; simpl;
    [|discriminate].
  destruct (outcome (body w0)) as [r0|e]; simpl;
    [|discriminate].
  destruct (time_time_impl w1) as [t1 w2]. simpl.
  intros [= <-]. eauto.
Qed.

(** A fault of the guarded block leaves [safe_run] as it is when the
    release returns. *)
Lemma safe_run_raises_of_try self g ex w e :
  release_returns self →
  outcome (safe_run_try self g ex (after_clock w)) = Raise e →
  outcome (safe_run self g ex w) = Raise e.
Proof.
  intros Hrel Ht.
  unfold safe_run, safe_run_finally, release_connection, after_clock in *.
  revert Ht. generalize (safe_run_try self g ex). intros body Ht.
  unfold_run.
  destruct (time_time_impl w) as [t0 w0]. simpl in *.
  destruct (Hrel (world (body w0))) as [[] Ho].
  destruct (release_connection_impl _ _ _ _) as [o w1]. simpl in *.
  subst o. simpl. by rewrite Ht.
Qed.

(** The outcome of the guarded block, whichever way it ends: a returned
    result is the fresh result with the compiled node, or the local result
    marked by an [except] clause, or what [execute] returned. *)
Lemma safe_run_try_returns_inv self g ex w r :
  outcome (safe_run_try self g ex w) = Return r →
  (∃ cn, node r = Some cn ∧ skip r = false ∧ error r = None
         ∧ status r = VNone
         ∧ is_ephemeral_model (self_node self) = true)
  ∨ (∃ n msg, node r = Some n ∧ skip r = false ∧ error r = Some msg
              ∧ status r = VStr "ERROR")
  ∨ (∃ cn w', outcome (execute self cn ex g w') = Return r
              ∧ is_ephemeral_model (self_node self) = false).
Proof.
  destruct (outcome (compile self g w)) as [cn|e] eqn:Hc.
  - destruct (is_ephemeral_model (self_node self)) eqn:He.
    + rewrite (safe_run_try_ephemeral _ _ _ _ _ Hc He). simpl.
      intros [= <-]. left. exists cn. by simpl.
    + destruct (outcome (run self cn ex g (world (compile self g w))))
        as [r'|e] eqn:Hx.
      * rewrite (safe_run_try_run_returns _ _ _ _ _ _ Hc He Hx). simpl.
        intros [= <-]. right. right. eauto.
      * rewrite (safe_run_try_run_fault _ _ _ _ _ _ Hc He Hx). simpl.
        intros Hr. apply safe_run_except_returns in Hr
          as (Hn & Hs & _ & Hst & msg & Hm).
        right. left. exists cn, msg. by rewrite Hn, Hs.
  - rewrite (safe_run_try_compile_fault _ _ _ _ _ Hc). simpl.
    intros Hr. apply safe_run_except_returns in Hr
      as (Hn & Hs & _ & Hst & msg & Hm).
    right. left. exists (self_node self), msg. by rewrite Hn, Hs.
Qed.

Lemma exn_default_node_fills e (n : option Node) :
  is_catchable e = true → exn_node e = None →
  exn_node (exn_default_node e n) = n.
Proof.
  unfold exn_default_node. intros Hc Hn. rewrite Hn.
  by destruct e.
Qed.

Lemma exn_default_node_keeps e (n : option Node) :
  exn_node e ≠ None → exn_default_node e n = e.
Proof.
  unfold exn_default_node. by destruct (exn_node e).
Qed.

Lemma filter_no_release (l : list Event) :
  no_release l → List.filter is_release l = [].
Proof.
  induction 1 as [|ev l Hev _ IH]; simpl; [done|]. by rewrite Hev.
Qed.

(** ** Claims about [safe_run] *)

(** C1.  When the adapter's release returns, [safe_run] returns a result
    whose node is not [None] on every path on which it returns (given that
    [execute] itself hands back results with a node, as every runner of
    the module does); and a catchable fault of [compile], or of [run], is
    captured: [safe_run] returns normally, the result carries the initial
    node (respectively the compiled node), its error is the text of the
    fault, whose own node was defaulted to that node when it carried none,
    and its status is ["ERROR"]. *)
Theorem safe_run_captures_catchable_fault self g ex w :
  release_returns self →
  (∀ cn w' r, outcome (execute self cn ex g w') = Return r →
              node r ≠ None) →
  (∀ r, outcome (safe_run self g ex w) = Return r → node r ≠ None)
  ∧ (∀ e, is_catchable e = true →
       outcome (compile self g (after_clock w)) = Raise e →
       ∃ r, outcome (safe_run self g ex w) = Return r
            ∧ node r = Some (self_node self)
            ∧ error r = Some (to_string
                  (exn_default_node e (Some (self_node self))))
            ∧ status r = VStr "ERROR")
  ∧ (∀ e cn, is_catchable e = true →
       outcome (compile self g (after_clock w)) = Return cn →
       is_ephemeral_model (self_node self) = false →
       outcome (run self cn ex g
                  (world (compile self g (after_clock w)))) = Raise e →
       ∃ r, outcome (safe_run self g ex w) = Return r
            ∧ node r = Some cn
            ∧ error r = Some (to_string (exn_default_node e (Some cn)))
            ∧ status r = VStr "ERROR")
  ∧ (∀ e n, is_catchable e = true → exn_node e = None →
       exn_node (exn_default_node e (Some n)) = Some n).
Proof.
  intros Hrel Hexec. repeat split.
  - intros r Hr.
    apply safe_run_returns_inv in Hr as (r0 & dt & Hr0 & ->). simpl.
    apply safe_run_try_returns_inv in Hr0
      as [(cn & -> & _)|[(n & msg & -> & _)|(cn & w' & Hx & _)]];
      [done|done|by eapply Hexec].
  - intros e He Hc.
    pose proof (safe_run_try_compile_fault self g ex _ e Hc) as Ht.
    simpl in Ht. rewrite safe_run_except_catchable in Ht by done.
    simpl in Ht.
    destruct (safe_run_returns_of_try self g ex w _ Hrel
                (f_equal outcome Ht)) as [dt Hdt].
    eexists. split; [exact Hdt|]. by simpl.
  - intros e cn He Hc Hne Hx.
    pose proof (safe_run_try_run_fault self g ex _ cn e Hc Hne Hx) as Ht.
    simpl in Ht. rewrite safe_run_except_catchable in Ht by done.
    simpl in Ht.
    destruct (safe_run_returns_of_try self g ex w _ Hrel
                (f_equal outcome Ht)) as [dt Hdt].
    eexists. split; [exact Hdt|]. by simpl.
  - intros e n He Hn. by apply exn_default_node_fills.
Qed.

(** C2.  Whatever the guarded block does (return, catchable fault,
    internal fault, a fault that is logged and raised again, or one that
    no clause matches), the calls of [safe_run] contain exactly one
    release, that of this node's connection, and it is the last call:
    the outcome, a raised fault included, reaches the caller after it.
    [compile] and [execute] are taken not to release connections
    themselves. *)
Theorem safe_run_releases_exactly_once self g ex w :
  (∀ w', no_release (trace (compile self g w'))) →
  (∀ cn w', no_release (trace (execute self cn ex g w'))) →
  List.filter is_release (trace (safe_run self g ex w)) = [release_of self]
  ∧ last (trace (safe_run self g ex w)) = Some (release_of self).
Proof.
  intros Hcomp Hexec. rewrite safe_run_trace.
  pose proof (safe_run_try_no_release self g ex (after_clock w) Hcomp Hexec)
    as Hno.
  split.
  - rewrite List.filter_app, (filter_no_release _ Hno). done.
  - by rewrite last_snoc.
Qed.

(** ** Ephemeral models *)

Lemma is_ephemeral_model_iff n :
  is_ephemeral_model n = true ↔
  dict_get n "resource_type" = NodeType_Model
  ∧ get_materialization n = VStr "ephemeral".
Proof.
  unfold is_ephemeral_model, is_model, is_ephemeral, py_eq.
  rewrite andb_true_iff, !bool_decide_eq_true. done.
Qed.

(** For an ephemeral model the guarded block does not depend on the
    [execute] method. *)
Lemma safe_run_try_ephemeral_any_execute self g ex w f :
  is_ephemeral_model (self_node self) = true →
  safe_run_try (with_execute self f) g ex w = safe_run_try self g ex w.
Proof.
  intros He. unfold safe_run_try, try_except. simpl.
  destruct (outcome (compile self g w)); [|done].
  by rewrite He.
Qed.

(** C3.  [is_ephemeral_model] holds exactly of the nodes whose resource
    type is Model and whose materialization is ["ephemeral"].  For such a
    node [safe_run] calls [compile] (its calls open the trace) and never
    [execute]: replacing the [execute] method by any other leaves the
    whole run unchanged; and when [compile] returns a node and the release
    returns, the calls are those of [compile] followed by the release, and
    the result is the fresh result built from the compiled node, with the
    elapsed time. *)
Theorem ephemeral_model_compiled_not_executed self g ex w :
  (∀ n, is_ephemeral_model n = true ↔
        dict_get n "resource_type" = NodeType_Model
        ∧ get_materialization n = VStr "ephemeral")
  ∧ (is_ephemeral_model (self_node self) = true →
     (∀ f, safe_run (with_execute self f) g ex w = safe_run self g ex w)
     ∧ trace (compile self g (after_clock w))
         `prefix_of` trace (safe_run self g ex w)
     ∧ (∀ cn, outcome (compile self g (after_clock w)) = Return cn →
          release_returns self →
          trace (safe_run self g ex w) =
            trace (compile self g (after_clock w)) ++ [release_of self]
          ∧ ∃ dt, outcome (safe_run self g ex w) =
                  Return (set_execution_time
                            (set_node (RunModelResult_init (self_node self))
                                      (Some cn)) dt))).
Proof.
  split; [apply is_ephemeral_model_iff|].
  intros He. repeat split.
  - intros f. unfold safe_run, try_finally, bind.
    by rewrite safe_run_try_ephemeral_any_execute.
  - rewrite safe_run_trace.
    unfold safe_run_try, try_except.
    destruct (outcome (compile self g (after_clock w))); simpl.
    + rewrite He. simpl. rewrite app_nil_r. by eexists.
    + rewrite <- app_assoc. by eexists.
  - rewrite safe_run_trace.
    by rewrite (safe_run_try_ephemeral self g ex _ cn).
  - apply safe_run_returns_of_try; [done|].
    by rewrite (safe_run_try_ephemeral self g ex _ cn).
Qed.

(** C9.  For an ephemeral model whose [compile] returns, [safe_run]
    returns (when the release returns) a result that is not marked as
    skipped, has no error and no status, and carries the compiled node. *)
Theorem ephemeral_model_result_not_skipped self g ex w cn :
  is_ephemeral_model (self_node self) = true →
  outcome (compile self g (after_clock w)) = Return cn →
  release_returns self →
  ∃ r, outcome (safe_run self g ex w) = Return r
       ∧ skip r = false ∧ error r = None ∧ status r = VNone
       ∧ node r = Some cn.
Proof.
  intros He Hc Hrel.
  destruct (safe_run_returns_of_try self g ex w
              (set_node (RunModelResult_init (self_node self)) (Some cn))
              Hrel) as [dt Hdt].
  { by rewrite (safe_run_try_ephemeral self g ex _ cn). }
  eexists. split; [exact Hdt|]. by simpl.
Qed.

(** ** Skip and error *)

Lemma on_skip_returns self w :
  outcome (on_skip self w) =
  Return (set_skip (RunModelResult_init (self_node self)) true).
Proof.
  unfold on_skip, bind.
  destruct (negb (is_ephemeral_model (self_node self))); by simpl.
Qed.

(** C7.  A result of [on_skip] is skipped and has no error.  No result
    that [safe_run] returns, on any path, is both skipped and in error,
    given that [execute] returns none such: the success path hands the
    result of [execute] through unchanged but for the time.  On the path
    of a catchable fault, of [compile] or of [run], the result has an
    error and is not skipped, whatever [execute] is. *)
Theorem no_result_skipped_and_in_error self g ex w :
  execute_consistent self g ex →
  (∀ w' r, outcome (on_skip self w') = Return r →
           skip r = true ∧ error r = None)
  ∧ (∀ r, outcome (safe_run self g ex w) = Return r → ¬ skip_and_error r)
  ∧ (∀ e r, is_catchable e = true →
       outcome (compile self g (after_clock w)) = Raise e
       ∨ (∃ cn, outcome (compile self g (after_clock w)) = Return cn
                ∧ is_ephemeral_model (self_node self) = false
                ∧ outcome (run self cn ex g
                     (world (compile self g (after_clock w)))) = Raise e) →
       outcome (safe_run self g ex w) = Return r →
       skip r = false ∧ error r ≠ None).
Proof.
  intros Hexec. split; [|split].
  - intros w' r. rewrite on_skip_returns. by intros [= <-].
  - intros r Hr [Hs He].
    apply safe_run_returns_inv in Hr as (r0 & dt & Hr0 & ->).
    simpl in *.
    apply safe_run_try_returns_inv in Hr0
      as [(cn & _ & Hs0 & _)|[(n & msg & _ & Hs0 & _)|(cn & w' & Hx & _)]].
    + congruence.
    + congruence.
    + by apply (Hexec _ _ _ Hx).
  - intros e r He Hpath Hr.
    apply safe_run_returns_inv in Hr as (r0 & dt & Hr0 & ->).
    simpl.
    destruct Hpath as [Hc|(cn & Hc & Hne & Hx)].
    + rewrite (safe_run_try_compile_fault self g ex _ e Hc) in Hr0.
      simpl in Hr0. rewrite safe_run_except_catchable in Hr0 by done.
      simpl in Hr0. by injection Hr0 as <-.
    + rewrite (safe_run_try_run_fault self g ex _ cn e Hc Hne Hx) in Hr0.
      simpl in Hr0. rewrite safe_run_except_catchable in Hr0 by done.
      simpl in Hr0. by injection Hr0 as <-.
Qed.

(** ** Calls of composed computations *)

Lemma bind_returns_inv {A B} (m : M World A) (k : A → M World B) w b :
  outcome (bind m k w) = Return b →
  ∃ a, outcome (m w) = Return a ∧ outcome (k a (world (m w))) = Return b.
Proof.
  unfold bind. destruct (outcome (m w)) as [a|e]; simpl; [eauto|discriminate].
Qed.

Lemma bind_pure {A B} (m : M World A) (k : A → M World B) w a :
  m w = mkRun (Return a) [] w → bind m k w = k a w.
Proof. intros Hm. unfold bind. rewrite Hm. simpl. by destruct (k a w). Qed.

Lemma bind_extern {A B} ev (f : World → Outcome A * World)
    (k : A → M World B) w a w1 :
  f w = (Return a, w1) →
  bind (extern ev f) k w =
  mkRun (outcome (k a w1)) (ev :: trace (k a w1)) (world (k a w1)).
Proof. intros Hf. unfold bind, extern. by rewrite Hf. Qed.

Section Calls.

Variable P : Event → Prop.

Lemma Forall_trace_ret {A} (a : A) w : Forall P (trace (ret a w)).
Proof. constructor. Qed.

Lemma Forall_trace_raise {A} e w : Forall P (trace (raise (A:=A) e w)).
Proof. constructor. Qed.

Lemma Forall_trace_emit ev w : P ev → Forall P (trace (emit ev w)).
Proof. intros. by repeat constructor. Qed.

Lemma Forall_trace_extern {A} ev (f : World → Outcome A * World) w :
  P ev → Forall P (trace (extern ev f w)).
Proof. intros. unfold extern. destruct (f w). by repeat constructor. Qed.

Lemma Forall_trace_bind {A B} (m : M World A) (k : A → M World B) w :
  Forall P (trace (m w)) → (∀ a w', Forall P (trace (k a w'))) →
  Forall P (trace (bind m k w)).
Proof.
  intros Hm Hk. unfold bind.
  destruct (outcome (m w)); simpl; [|done].
  apply Forall_app. auto.
Qed.

Lemma Forall_trace_try_except {A B} (m : M World A)
    (h : Exn → M World B) (k : A → M World B) w :
  Forall P (trace (m w)) → (∀ e w', Forall P (trace (h e w'))) →
  (∀ a w', Forall P (trace (k a w'))) →
  Forall P (trace (try_except m h k w)).
Proof.
  intros Hm Hh Hk. unfold try_except. simpl.
  apply Forall_app. split; [done|].
  destruct (outcome (m w)); auto.
Qed.

Lemma Forall_trace_for_each {A} (xs : list A) (body : A → M World unit) w :
  (∀ x w', Forall P (trace (body x w'))) →
  Forall P (trace (for_each xs body w)).
Proof.
  intros Hb. revert w.
  induction xs as [|x xs IH]; intros w; simpl.
  - constructor.
  - apply Forall_trace_bind; auto.
Qed.

Lemma Forall_trace_dict_getitem (d : gmap string PyVal) k w :
  Forall P (trace (dict_getitem d k w)).
Proof. unfold dict_getitem. destruct (d !! k); constructor. Qed.

Lemma Forall_trace_list_getitem {A} (l : list A) i w :
  Forall P (trace (list_getitem l i w)).
Proof. unfold list_getitem. destruct (l !! i); constructor. Qed.

End Calls.

(** ** What the runners' [execute] methods return *)

Lemma CompileRunner_execute_fresh project adapter n i num cn ex g w r :
  outcome (execute (CompileRunner project adapter n i num) cn ex g w)
    = Return r →
  fresh_result_of r cn.
Proof. simpl. by intros [= <-]. Qed.

Lemma ModelRunner_execute_fresh project adapter model ex g w r :
  outcome (ModelRunner_execute project adapter model ex g w) = Return r →
  fresh_result_of r model.
Proof.
  unfold ModelRunner_execute. intros H.
  apply bind_returns_inv in H as (ctx & _ & H).
  destruct (get_materialization_macro _ _ _); [|discriminate].
  apply bind_returns_inv in H as (ctx' & _ & H).
  apply bind_returns_inv in H as (st & _ & H).
  simpl in H. by injection H as <-.
Qed.

Lemma TestRunner_execute_fresh adapter profile test ex g w r :
  outcome (TestRunner_execute adapter profile test ex g w) = Return r →
  fresh_result_of r test.
Proof.
  unfold TestRunner_execute. intros H.
  apply bind_returns_inv in H as (st & _ & H).
  simpl in H. by injection H as <-.
Qed.

Lemma fresh_result_consistent r cn :
  fresh_result_of r cn → node r ≠ None ∧ ¬ skip_and_error r.
Proof.
  intros (Hn & He & Hs). split; [by rewrite Hn|].
  intros [Hs' _]. congruence.
Qed.

(** Every runner class of the module has a consistent [execute]. *)
Lemma CompileRunner_consistent project adapter n i num g ex :
  execute_consistent (CompileRunner project adapter n i num) g ex.
Proof.
  intros cn w r H. by apply CompileRunner_execute_fresh,
    fresh_result_consistent in H as [_ H].
Qed.

Lemma ModelRunner_consistent project adapter n i num g ex :
  execute_consistent (ModelRunner project adapter n i num) g ex.
Proof.
  intros cn w r H. by apply ModelRunner_execute_fresh,
    fresh_result_consistent in H as [_ H].
Qed.

Lemma TestRunner_consistent project adapter n i num g ex :
  execute_consistent (TestRunner project adapter n i num) g ex.
Proof.
  intros cn w r H. by apply TestRunner_execute_fresh,
    fresh_result_consistent in H as [_ H].
Qed.

Lemma ArchiveRunner_consistent project adapter n i num g ex :
  execute_consistent (ArchiveRunner project adapter n i num) g ex.
Proof. apply ModelRunner_consistent. Qed.

(** ** ModelRunner.execute *)

(** C8.  Once the context is generated: when no macro is registered for
    the node's materialization and the adapter's type, [execute] fails
    with the MissingMaterialization fault carrying the node and the
    adapter type, and no macro is called; when one is registered, it is
    called on the context, and the status of the returned result is the
    [status] of the result object found under ["main"] in the context the
    macro left behind. *)
Theorem ModelRunner_execute_materialization
    project adapter model ex g w ctx w1 :
  generate model project g w = (Return ctx, w1) →
  (get_materialization_macro g (get_materialization model)
     (adapter_type adapter) = None →
   ModelRunner_execute project adapter model ex g w =
   mkRun (Raise (MissingMaterialization model (adapter_type adapter)))
         [EGenerateContext model] w1)
  ∧ (∀ macro ctx' w2 res st,
       get_materialization_macro g (get_materialization model)
         (adapter_type adapter) = Some macro →
       generator macro ctx w1 = (Return ctx', w2) →
       ctx' !! "main" = Some res →
       res !! "status" = Some st →
       ModelRunner_execute project adapter model ex g w =
       mkRun (Return (set_status (RunModelResult_init model) st))
             [EGenerateContext model; EMacro (macro_name macro)] w2).
Proof.
  intros Hgen. split.
  - intros Hnone. unfold ModelRunner_execute, bind, extern.
    rewrite Hgen. simpl. by rewrite Hnone.
  - intros macro ctx' w2 res st Hsome Hmacro Hmain Hst.
    unfold ModelRunner_execute, bind, extern.
    rewrite Hgen. simpl. rewrite Hsome. simpl.
    rewrite Hmacro. simpl. rewrite Hmain. simpl. by rewrite Hst.
Qed.

(** ** TestRunner.execute_test *)

Lemma Forall_False_nil {A} (l : list A) : Forall (λ _, False) l → l = [].
Proof. by destruct 1. Qed.

(** What [execute_test] does with the fetched rows makes no call. *)
Lemma execute_test_trace adapter profile test w :
  trace (execute_test adapter profile test w) =
  [EExecuteAndFetch profile (dict_get test "wrapped_sql")
                    (dict_get test "name") true].
Proof.
  unfold execute_test. unfold bind at 1. unfold extern.
  destruct (execute_and_fetch_impl _ _ _ _ _ _) as [[fetched|e] w1];
    simpl; [|done].
  f_equal. apply Forall_False_nil.
  apply Forall_trace_bind.
  - destruct (1 <? length (snd fetched))%nat; [|constructor].
    apply Forall_trace_bind; [apply Forall_trace_list_getitem|].
    intros. constructor.
  - intros. apply Forall_trace_bind; [apply Forall_trace_list_getitem|].
    intros. apply Forall_trace_list_getitem.
Qed.

(** C6, amended to what the code does.  Given the rows that were fetched:
    exactly one row with one column returns that cell; more than one row
    raises the fault whose message gives the test's name, the number of
    rows and the number of columns of the first row; a value is returned
    only for exactly one row with at least one column (its first cell);
    a single row without columns, and no row at all, fault with Python's
    index fault and not with that message. *)
Theorem execute_test_on_fetched_rows adapter profile test w res rows w1 :
  execute_and_fetch_impl adapter profile (dict_get test "wrapped_sql")
    (dict_get test "name") true w = (Return (res, rows), w1) →
  (∀ v, rows = [[v]] →
        outcome (execute_test adapter profile test w) = Return v)
  ∧ (∀ row0 rest, rows = row0 :: rest → rest ≠ [] →
        outcome (execute_test adapter profile test w) =
        Raise (RuntimeError
                 ("Bad test " +:+ py_str (dict_get test "name")
                  +:+ ": Returned " +:+ pretty (length rows)
                  +:+ " rows and " +:+ pretty (length row0) +:+ " cols")))
  ∧ (∀ v, outcome (execute_test adapter profile test w) = Return v →
          ∃ cells, rows = [v :: cells])
  ∧ (rows = [[]] ∨ rows = [] →
        outcome (execute_test adapter profile test w) = Raise IndexError).
Proof.
  intros Hfetch.
  assert (Hout : outcome (execute_test adapter profile test w) =
    match rows with
    | [] => Raise IndexError
    | [[]] => Raise IndexError
    | [v :: _] => Return v
    | row0 :: _ :: _ =>
        Raise (RuntimeError (bad_test_message (dict_get test "name")
                               (length rows) (length row0)))
    end).
  { unfold execute_test, bind, extern, list_getitem, ret, raise.
    rewrite Hfetch. simpl.
    destruct rows as [|row0 [|row1 rest]]; simpl; [done| |];
      by destruct row0. }
  rewrite Hout. repeat split.
  - by intros v ->.
  - intros row0 rest -> Hrest. destruct rest; [done|]. by destruct row0.
  - destruct rows as [|[|v cells] [|row1 rest]]; try discriminate.
    intros v' [= <-]. eauto.
  - by intros [->| ->].
Qed.

(** ** The hook phase *)

Ltac trace_forall :=
  repeat first
    [ apply Forall_trace_ret | apply Forall_trace_raise
    | apply Forall_trace_emit | apply Forall_trace_extern
    | apply Forall_trace_dict_getitem | apply Forall_trace_list_getitem
    | apply Forall_trace_bind | apply Forall_trace_for_each
    | apply Forall_trace_try_except
    | progress intros
    | match goal with
      | |- Forall _ (trace ((if ?b then _ else _) _)) => destruct b
      end
    | done ].

Lemma compile_node_calls adapter project n g w :
  Forall (λ ev, compile_event ev = true)
         (trace (compile_node adapter project n g w)).
Proof. unfold compile_node, inject_runtime_config. trace_forall. Qed.

Lemma run_hooks_compile_calls adapter project g hooks acc w :
  Forall (λ ev, compile_event ev = true)
         (trace (run_hooks_compile adapter project g hooks acc w)).
Proof.
  revert acc w. induction hooks as [|hook hooks IH]; intros acc w; simpl.
  - constructor.
  - apply Forall_trace_bind; [apply compile_node_calls|].
    intros compiled w'. apply Forall_trace_bind;
      [apply Forall_trace_dict_getitem|].
    intros. apply IH.
Qed.

Lemma compile_event_hook_phase ev :
  compile_event ev = true → hook_phase_event ev = true.
Proof. by destruct ev. Qed.

(** Every call of [run_hooks] belongs to the hook phase: in particular
    every hook statement is sent with [auto_begin=False]. *)
Lemma run_hooks_calls project adapter g hook_type w :
  Forall (λ ev, hook_phase_event ev = true)
         (trace (run_hooks project adapter g hook_type w)).
Proof.
  unfold run_hooks.
  apply Forall_trace_bind; [by apply Forall_trace_extern|].
  intros conn_name w1. apply Forall_trace_bind.
  - eapply Forall_impl; [apply run_hooks_compile_calls|].
    apply compile_event_hook_phase.
  - intros compiled_hooks w2. apply Forall_trace_for_each.
    intros hook w3. unfold run_hooks_body, release_connection.
    trace_forall.
Qed.

Lemma safe_run_hooks_calls project adapter g hook_type w :
  Forall (λ ev, hook_phase_event ev = true)
         (trace (safe_run_hooks project adapter g hook_type w)).
Proof.
  unfold safe_run_hooks. apply Forall_trace_try_except.
  - apply run_hooks_calls.
  - intros e w'. destruct (is_RuntimeException e); trace_forall.
  - trace_forall.
Qed.

(** The transaction is cleared first: the trace of [run_hooks] opens with
    that call, and it is the only one of its kind. *)
Lemma run_hooks_clears_first project adapter g hook_type w :
  ∃ calls,
    trace (run_hooks project adapter g hook_type w) =
      EClearTransaction (run_environment project) :: calls
    ∧ Forall (λ ev, is_clear_transaction ev = false) calls.
Proof.
  unfold run_hooks. unfold bind at 1. unfold extern.
  destruct (clear_transaction_impl _ _ _) as [[conn_name|e] w1]; simpl.
  - eexists. split; [done|].
    apply Forall_trace_bind.
    + eapply Forall_impl; [apply run_hooks_compile_calls|].
      by intros [].
    + intros compiled_hooks w2. apply Forall_trace_for_each.
      intros hook w3. unfold run_hooks_body, release_connection.
      trace_forall.
  - eexists. split; [done|constructor].
Qed.

(** C10.  [execute_test] makes one call, the fetch of the test's query,
    and sends it with [auto_begin=True]; whereas in the calls of
    [run_hooks] every statement goes through [execute_one] with
    [auto_begin=False], and nothing is fetched. *)
Theorem execute_test_begins_transaction
    adapter profile test w project g hook_type w' :
  trace (execute_test adapter profile test w) =
    [EExecuteAndFetch profile (dict_get test "wrapped_sql")
                      (dict_get test "name") true]
  ∧ Forall (λ ev, match ev with
                  | EExecuteOne _ _ _ auto_begin => auto_begin = false
                  | EExecuteAndFetch _ _ _ _ => False
                  | _ => True
                  end)
           (trace (run_hooks project adapter g hook_type w')).
Proof.
  split; [apply execute_test_trace|].
  eapply Forall_impl; [apply run_hooks_calls|].
  intros [] H; simpl in *; try done.
  by destruct auto_begin.
Qed.

(** ** Schema creation *)

Lemma get_model_schemas_loop_spec (ns : list Node) (acc : gset PyVal) w :
  (∀ n, n ∈ ns → is_model n = true → is_ephemeral n = false →
        is_Some (n !! "schema")) →
  ∃ S : gset PyVal,
    get_model_schemas_loop ns acc w = mkRun (Return S) [] w
    ∧ ∀ s, s ∈ S ↔
           s ∈ acc ∨ ∃ n, n ∈ ns ∧ is_model n = true
                          ∧ is_ephemeral n = false ∧ n !! "schema" = Some s.
Proof.
  revert acc. induction ns as [|n ns IH]; intros acc Hschema; simpl.
  - exists acc. split; [done|]. intros s. split; [auto|].
    intros [?|(n & Hn & _)]; [done|]. by apply elem_of_nil in Hn.
  - destruct (is_model n) eqn:Hm; simpl;
      [destruct (is_ephemeral n) eqn:He; simpl|].
    + destruct (IH acc) as (S & HS & Hiff).
      { intros. apply Hschema; [by right|done..]. }
      exists S. split; [done|]. intros s. rewrite Hiff. split.
      * intros [?|(n' & Hn' & ?)]; [by left|]. right. exists n'.
        split; [by right|done].
      * intros [?|(n' & Hn' & Hm' & He' & ?)]; [by left|].
        apply elem_of_cons in Hn' as [->|Hn']; [congruence|].
        right. eauto.
    + destruct (Hschema n) as [s0 Hs0]; [by left|done..|].
      destruct (IH (acc ∪ {[s0]})) as (S & HS & Hiff).
      { intros. apply Hschema; [by right|done..]. }
      exists S. split.
      { unfold bind, dict_getitem. rewrite Hs0. simpl. by rewrite HS. }
      intros s. rewrite Hiff, elem_of_union, elem_of_singleton. split.
      * intros [[?| ->]|(n' & Hn' & ?)]; [by left| |].
        -- right. exists n. split; [by left|done].
        -- right. exists n'. split; [by right|done].
      * intros [?|(n' & Hn' & Hm' & He' & Hs')]; [by left; left|].
        apply elem_of_cons in Hn' as [->|Hn'].
        -- left. right. congruence.
        -- right. eauto.
    + destruct (IH acc) as (S & HS & Hiff).
      { intros. apply Hschema; [by right|done..]. }
      exists S. split; [done|]. intros s. rewrite Hiff. split.
      * intros [?|(n' & Hn' & ?)]; [by left|]. right. exists n'.
        split; [by right|done].
      * intros [?|(n' & Hn' & Hm' & He' & ?)]; [by left|].
        apply elem_of_cons in Hn' as [->|Hn']; [congruence|].
        right. eauto.
Qed.

Lemma get_model_schemas_spec g w :
  models_have_schema g →
  ∃ S : gset PyVal,
    get_model_schemas g w = mkRun (Return S) [] w
    ∧ ∀ s, s ∈ S ↔ required_schema g s.
Proof.
  intros Hg. unfold get_model_schemas.
  destruct (get_model_schemas_loop_spec (map snd (nodes g)) ∅ w Hg)
    as (S & HS & Hiff).
  exists S. split; [done|]. intros s. rewrite Hiff.
  unfold required_schema. split; [|auto].
  intros [H|H]; [|done]. by apply not_elem_of_empty in H.
Qed.

(** A loop of calls that all return makes one call per element, in
    order. *)
Lemma for_each_extern {A} (xs : list A) (ev : A → Event)
    (f : A → World → Outcome unit * World) w :
  (∀ x w', returns (fst (f x w'))) →
  outcome (for_each xs (λ x, extern (ev x) (f x)) w) = Return tt
  ∧ trace (for_each xs (λ x, extern (ev x) (f x)) w) = map ev xs.
Proof.
  intros Hf. revert w. induction xs as [|x xs IH]; intros w; simpl.
  - done.
  - assert (Hx : extern (ev x) (f x) w =
                 mkRun (Return tt) [ev x] (snd (f x w))).
    { unfold extern. destruct (Hf x w) as [[] Hx].
      destruct (f x w); simpl in *. by subst. }
    unfold bind. rewrite Hx. simpl.
    by destruct (IH (snd (f x w))) as [-> ->].
Qed.

Lemma filter_hook_phase_create (l : list Event) :
  Forall (λ ev, hook_phase_event ev = true) l →
  List.filter is_create_schema l = [].
Proof.
  induction 1 as [|ev l Hev _ IH]; simpl; [done|].
  rewrite IH. by destruct ev.
Qed.

Lemma filter_create_schema_map profile (l : list PyVal) :
  List.filter is_create_schema (map (ECreateSchema profile) l) =
  map (ECreateSchema profile) l.
Proof. induction l as [|s l IH]; simpl; [done|]. by rewrite IH. Qed.

(** C4.  When every non-ephemeral model has a schema, the adapter reports
    [existing] and creating a schema does not fault, [create_schemas]
    asks for the existing schemas and then calls [create_schema] once for
    each schema of a non-ephemeral model that is not among the existing
    ones, and for no other: the created schemas are without repetition
    and are exactly that difference, so none is created when every
    required schema exists.  These are also all the schema creations of
    [ModelRunner.before_run]: its hook phase creates none. *)
Theorem create_schemas_creates_missing project adapter g w existing w1 :
  models_have_schema g →
  get_existing_schemas_impl adapter (run_environment project) w
    = (Return existing, w1) →
  (∀ s w', returns (fst (create_schema_impl adapter
                           (run_environment project) s w'))) →
  ∃ created : list PyVal,
    trace (create_schemas project adapter g w) =
      EGetExistingSchemas (run_environment project)
      :: map (ECreateSchema (run_environment project)) created
    ∧ outcome (create_schemas project adapter g w) = Return tt
    ∧ NoDup created
    ∧ (∀ s, s ∈ created ↔ required_schema g s ∧ s ∉ existing)
    ∧ ((∀ s, required_schema g s → s ∈ existing) → created = [])
    ∧ List.filter is_create_schema
        (trace (ModelRunner_before_run project adapter g w)) =
      map (ECreateSchema (run_environment project)) created.
Proof.
  intros Hg Hexisting Hcreate.
  destruct (get_model_schemas_spec g w Hg) as (S & HS & Hiff).
  set (D := S ∖ list_to_set (C:=gset PyVal) existing).
  assert (HD : ∀ s, s ∈ elements D ↔ required_schema g s ∧ s ∉ existing).
  { intros s. unfold D.
    rewrite elem_of_elements, elem_of_difference, elem_of_list_to_set.
    by rewrite Hiff. }
  destruct (for_each_extern (elements D)
              (ECreateSchema (run_environment project))
              (create_schema_impl adapter (run_environment project))
              w1 Hcreate) as [Hout Htr].
  assert (Hrun : create_schemas project adapter g w =
    mkRun (outcome (for_each (elements D)
             (λ schema,
                extern (ECreateSchema (run_environment project) schema)
                  (create_schema_impl adapter (run_environment project)
                     schema))
             w1))
          (EGetExistingSchemas (run_environment project)
           :: map (ECreateSchema (run_environment project)) (elements D))
          (world (for_each (elements D)
             (λ schema,
                extern (ECreateSchema (run_environment project) schema)
                  (create_schema_impl adapter (run_environment project)
                     schema))
             w1))).
  { unfold create_schemas. rewrite (bind_pure _ _ _ _ HS).
    rewrite (bind_extern _ _ _ _ _ _ Hexisting). fold D. by rewrite Htr. }
  pose proof (NoDup_elements D) as Hnodup.
  revert HD Hout Htr Hrun Hnodup.
  generalize (elements D). intros created HD Hout Htr Hrun Hnodup.
  exists created. split; [by rewrite Hrun|].
  split; [by rewrite Hrun|].
  split; [done|].
  split; [done|].
  split.
  - intros Hall. destruct created as [|s l]; [done|].
    exfalso. destruct (HD s) as [Hs _].
    destruct Hs as [Hreq Hnot]; [by left|].
    by apply Hnot, Hall.
  - unfold ModelRunner_before_run, bind. rewrite Hrun.
    cbn [outcome trace world]. rewrite Hout. cbn [outcome trace world].
    rewrite List.filter_app.
    rewrite (filter_hook_phase_create _ (safe_run_hooks_calls _ _ _ _ _)).
    rewrite app_nil_r. apply filter_create_schema_map.
Qed.

(** ** Where the hook connection is released *)

(** One turn of the second loop of [run_hooks], without strict validation
    and with an adapter that answers: the statement, then a release. *)
Lemma run_hooks_body_run adapter profile conn_name hook w w1 w2 :
  STRICT_MODE = false →
  execute_one_impl adapter profile (default (VStr "") (hook !! "sql"))
    conn_name false w = (Return tt, w1) →
  release_connection_impl adapter profile conn_name w1 = (Return tt, w2) →
  run_hooks_body adapter profile conn_name hook w =
  mkRun (Return tt)
        [EExecuteOne profile (default (VStr "") (hook !! "sql"))
                     conn_name false;
         EReleaseConnection profile conn_name] w2.
Proof.
  intros Hstrict Hexec Hrel. unfold run_hooks_body. rewrite Hstrict.
  rewrite (bind_pure (ret tt) _ w tt) by done.
  rewrite (bind_extern _ _ _ _ _ _ Hexec).
  unfold release_connection, extern. by rewrite Hrel.
Qed.

(** The connection is released inside the loop, once for every hook: with
    an adapter that answers, the loop over [hooks] makes, for each hook
    in turn, the statement call and then a release call. *)
Lemma run_hooks_loop_releases_per_hook
    adapter profile conn_name (hooks : list (gmap string PyVal)) w :
  STRICT_MODE = false →
  (∀ sql w', returns (fst (execute_one_impl adapter profile sql conn_name
                             false w'))) →
  (∀ w', returns (fst (release_connection_impl adapter profile conn_name
                         w'))) →
  trace (for_each hooks (run_hooks_body adapter profile conn_name) w) =
  flat_map (λ hook,
              [EExecuteOne profile (default (VStr "") (hook !! "sql"))
                           conn_name false;
               EReleaseConnection profile conn_name]) hooks.
Proof.
  intros Hstrict Hexec Hrel. revert w.
  induction hooks as [|hook hooks IH]; intros w; simpl; [done|].
  destruct (Hexec (default (VStr "") (hook !! "sql")) w) as [[] Ho1].
  destruct (execute_one_impl adapter profile
              (default (VStr "") (hook !! "sql")) conn_name false w)
    as [o1 w1] eqn:H1.
  simpl in Ho1. subst o1.
  destruct (Hrel w1) as [[] Ho2].
  destruct (release_connection_impl adapter profile conn_name w1)
    as [o2 w2] eqn:H2.
  simpl in Ho2. subst o2.
  unfold bind.
  rewrite (run_hooks_body_run _ _ _ _ _ _ _ Hstrict H1 H2). simpl.
  by rewrite IH.
Qed.

(** ** The runner classes release nothing in [compile] and [execute] *)

Lemma compile_node_no_release adapter project n g w :
  no_release (trace (compile_node adapter project n g w)).
Proof.
  eapply Forall_impl; [apply compile_node_calls|]. by intros [].
Qed.

Lemma ModelRunner_execute_no_release project adapter model ex g w :
  no_release (trace (ModelRunner_execute project adapter model ex g w)).
Proof.
  unfold ModelRunner_execute, missing_materialization, getattr, no_release.
  apply Forall_trace_bind; [by apply Forall_trace_extern|].
  intros ctx w1. destruct (get_materialization_macro _ _ _);
    [|apply Forall_trace_raise].
  apply Forall_trace_bind; [by apply Forall_trace_extern|].
  intros ctx' w2. apply Forall_trace_bind.
  - destruct (ctx' !! "main") as [res|]; [|apply Forall_trace_raise].
    destruct (res !! "status"); constructor.
  - intros. constructor.
Qed.

Lemma TestRunner_execute_no_release adapter profile test ex g w :
  no_release (trace (TestRunner_execute adapter profile test ex g w)).
Proof.
  unfold TestRunner_execute, no_release.
  apply Forall_trace_bind.
  - rewrite execute_test_trace. by repeat constructor.
  - intros. constructor.
Qed.

(** What the claims about [safe_run] ask of [compile] and [execute] holds
    of every runner that a class of the module builds: they release
    nothing, and what [execute] returns has a node and is not both
    skipped and in error. *)
Lemma module_runner_well_behaved self g ex :
  module_runner self →
  (∀ w, no_release (trace (compile self g w)))
  ∧ (∀ cn w, no_release (trace (execute self cn ex g w)))
  ∧ execute_consistent self g ex
  ∧ (∀ cn w r, outcome (execute self cn ex g w) = Return r →
               node r ≠ None).
Proof.
  destruct 1 as [project adapter n i num|project adapter n i num
                |project adapter n i num|project adapter n i num
                |project adapter n i num].
  - repeat split; try (intros; by constructor); intros cn w r; discriminate.
  - repeat split.
    + intros w. apply compile_node_no_release.
    + intros cn w. constructor.
    + apply CompileRunner_consistent.
    + intros cn w r H.
      by apply CompileRunner_execute_fresh, fresh_result_consistent in H as [H _].
  - repeat split.
    + intros w. apply compile_node_no_release.
    + intros cn w. apply ModelRunner_execute_no_release.
    + apply ModelRunner_consistent.
    + intros cn w r H.
      by apply ModelRunner_execute_fresh, fresh_result_consistent in H as [H _].
  - repeat split.
    + intros w. apply compile_node_no_release.
    + intros cn w. apply TestRunner_execute_no_release.
    + apply TestRunner_consistent.
    + intros cn w r H.
      by apply TestRunner_execute_fresh, fresh_result_consistent in H as [H _].
  - repeat split.
    + intros w. apply compile_node_no_release.
    + intros cn w. apply ModelRunner_execute_no_release.
    + apply ArchiveRunner_consistent.
    + intros cn w r H.
      by apply ModelRunner_execute_fresh, fresh_result_consistent in H as [H _].
Qed.

End Properties.

(** * The properties on the test doubles *)

Import Doubles.

Lemma adapter_ok_release_returns existing rows p (name : PyVal) (w : nat) :
  returns (fst (release_connection_impl (adapter_ok existing rows) p name
                  w)).
Proof. by eexists. Defined.

(** C1 on a runner whose compiler raises a compilation fault without a
    node: the result carries the runner's node, the fault's text and
    ["ERROR"]. *)
Lemma safe_run_captures_catchable_fault_witness :
  release_returns faulty_compile_runner
  ∧ (∀ cn w' r,
       outcome (execute faulty_compile_runner cn tt graph0 w') = Return r →
       node r ≠ None)
  ∧ is_catchable boom = true
  ∧ outcome (compile faulty_compile_runner graph0 1) = Raise boom
  ∧ ∃ r, outcome (safe_run (dbt:=dbt_boom) faulty_compile_runner graph0 tt 0)
           = Return r
         ∧ node r = Some node_a
         ∧ error r = Some "boom"
         ∧ status r = VStr "ERROR".
Proof.
  assert (Hrel : release_returns faulty_compile_runner).
  { intros w. apply adapter_ok_release_returns. }
  assert (Hexec : ∀ cn w' r,
    outcome (execute faulty_compile_runner cn tt graph0 w') = Return r →
    node r ≠ None).
  { intros cn w' r [= <-]. discriminate. }
  split; [exact Hrel|]. split; [exact Hexec|].
  split; [reflexivity|]. split; [reflexivity|].
  destruct (safe_run_captures_catchable_fault (dbt:=dbt_boom)
              faulty_compile_runner graph0 tt 0 Hrel Hexec)
    as (_ & Hfault & _).
  exact (Hfault boom eq_refl eq_refl).
Defined.

(** C2 on the fatal path: the test query comes back with two rows,
    [execute_test] raises [RuntimeError], which no clause captures; the
    fault leaves [safe_run], and the one release is the last call. *)
Lemma safe_run_releases_exactly_once_witness :
  (∀ w', no_release (trace (compile two_rows_runner graph0 w')))
  ∧ (∀ cn w', no_release (trace (execute two_rows_runner cn tt graph0 w')))
  ∧ outcome (safe_run (dbt:=dbt_ok) two_rows_runner graph0 tt 0) =
      Raise (RuntimeError "Bad test t: Returned 2 rows and 1 cols")
  ∧ List.filter is_release
      (trace (safe_run (dbt:=dbt_ok) two_rows_runner graph0 tt 0)) =
      [EReleaseConnection (run_environment project0) (VStr "t")]
  ∧ last (trace (safe_run (dbt:=dbt_ok) two_rows_runner graph0 tt 0)) =
      Some (EReleaseConnection (run_environment project0) (VStr "t")).
Proof.
  assert (Hcomp : ∀ w',
    no_release (trace (compile two_rows_runner graph0 w'))).
  { intros w'. apply (compile_node_no_release (dbt:=dbt_ok)). }
  assert (Hexec : ∀ cn w',
    no_release (trace (execute two_rows_runner cn tt graph0 w'))).
  { intros cn w'. apply (TestRunner_execute_no_release (dbt:=dbt_ok)). }
  split; [exact Hcomp|]. split; [exact Hexec|].
  split; [vm_compute; reflexivity|].
  exact (safe_run_releases_exactly_once (dbt:=dbt_ok)
           two_rows_runner graph0 tt 0 Hcomp Hexec).
Defined.

(** C3 on an ephemeral model run by a [ModelRunner]: the compiler and the
    renderer are called, then the release; no context is generated and no
    macro is looked for. *)
Lemma ephemeral_model_compiled_not_executed_witness :
  is_ephemeral_model (dbt:=dbt_ok) (self_node ephemeral_runner) = true
  ∧ outcome (compile ephemeral_runner graph0 1) = Return node_e
  ∧ release_returns ephemeral_runner
  ∧ (∀ f, safe_run (dbt:=dbt_ok) (with_execute ephemeral_runner f)
            graph0 tt 0
          = safe_run (dbt:=dbt_ok) ephemeral_runner graph0 tt 0)
  ∧ trace (safe_run (dbt:=dbt_ok) ephemeral_runner graph0 tt 0) =
      [ECompilerCompileNode node_e;
       EGetRendered (VStr "select * from e");
       EReleaseConnection (run_environment project0) (VStr "e")]
  ∧ ∃ dt, outcome (safe_run (dbt:=dbt_ok) ephemeral_runner graph0 tt 0) =
          Return (set_execution_time
                    (set_node (RunModelResult_init (dbt:=dbt_ok) node_e)
                              (Some node_e)) dt).
Proof.
  assert (He : is_ephemeral_model (dbt:=dbt_ok) (self_node ephemeral_runner)
               = true) by (vm_compute; reflexivity).
  assert (Hc : outcome (compile ephemeral_runner graph0 1) = Return node_e)
    by (vm_compute; reflexivity).
  assert (Hrel : release_returns ephemeral_runner).
  { intros w. apply adapter_ok_release_returns. }
  destruct (ephemeral_model_compiled_not_executed (dbt:=dbt_ok)
              ephemeral_runner graph0 tt 0) as [_ Heph].
  destruct (Heph He) as (Hany & _ & Hrun).
  destruct (Hrun node_e Hc Hrel) as [Htr Hout].
  split; [exact He|]. split; [exact Hc|]. split; [exact Hrel|].
  split; [exact Hany|]. split; [|exact Hout].
  rewrite Htr. vm_compute. reflexivity.
Defined.

(** C9 on the same runner. *)
Lemma ephemeral_model_result_not_skipped_witness :
  is_ephemeral_model (dbt:=dbt_ok) (self_node ephemeral_runner) = true
  ∧ outcome (compile ephemeral_runner graph0 1) = Return node_e
  ∧ release_returns ephemeral_runner
  ∧ ∃ r, outcome (safe_run (dbt:=dbt_ok) ephemeral_runner graph0 tt 0)
           = Return r
         ∧ skip r = false ∧ error r = None ∧ status r = VNone
         ∧ node r = Some node_e.
Proof.
  assert (He : is_ephemeral_model (dbt:=dbt_ok) (self_node ephemeral_runner)
               = true) by (vm_compute; reflexivity).
  assert (Hc : outcome (compile ephemeral_runner graph0 1) = Return node_e)
    by (vm_compute; reflexivity).
  assert (Hrel : release_returns ephemeral_runner).
  { intros w. apply adapter_ok_release_returns. }
  split; [exact He|]. split; [exact Hc|]. split; [exact Hrel|].
  exact (ephemeral_model_result_not_skipped (dbt:=dbt_ok)
           ephemeral_runner graph0 tt 0 node_e He Hc Hrel).
Defined.

(** C7 on the runner whose compiler faults: the captured result has an
    error and is not skipped, and the result of [on_skip] is skipped
    without error. *)
Lemma no_result_skipped_and_in_error_witness :
  execute_consistent faulty_compile_runner graph0 tt
  ∧ (∀ w' r, outcome (on_skip (dbt:=dbt_boom) faulty_compile_runner w')
               = Return r →
             skip r = true ∧ error r = None)
  ∧ (∀ r, outcome (safe_run (dbt:=dbt_boom) faulty_compile_runner graph0
                     tt 0) = Return r →
          ¬ skip_and_error r)
  ∧ (∀ r, outcome (safe_run (dbt:=dbt_boom) faulty_compile_runner graph0
                     tt 0) = Return r →
          skip r = false ∧ error r ≠ None).
Proof.
  assert (Hexec : execute_consistent faulty_compile_runner graph0 tt).
  { apply (CompileRunner_consistent (dbt:=dbt_boom)). }
  destruct (no_result_skipped_and_in_error (dbt:=dbt_boom)
              faulty_compile_runner graph0 tt 0 Hexec)
    as (Hskip & Hall & Hfault).
  split; [exact Hexec|]. split; [exact Hskip|]. split; [exact Hall|].
  intros r Hr. apply (Hfault boom r eq_refl); [|exact Hr].
  left. reflexivity.
Defined.

(** C8 on the doubles: with the macro registered for tables the result
    has the status the macro deposited; on a graph without macros the
    fault names the node and the adapter. *)
Lemma ModelRunner_execute_materialization_witness :
  generate (Dbt:=dbt_ok) node_a project0 graph_with_macro 0 = (Return ∅, 0)
  ∧ ModelRunner_execute (dbt:=dbt_ok) project0 (adapter_ok [] []) node_a tt
      graph_with_macro 0 =
    mkRun (Return (set_status (RunModelResult_init (dbt:=dbt_ok) node_a)
                              (VStr "CREATE TABLE")))
          [EGenerateContext node_a;
           EMacro "materialization_table_postgres"] 0
  ∧ ModelRunner_execute (dbt:=dbt_ok) project0 (adapter_ok [] []) node_a tt
      graph0 0 =
    mkRun (Raise (MissingMaterialization node_a "postgres"))
          [EGenerateContext node_a] 0.
Proof.
  split; [reflexivity|]. split.
  - refine (proj2 (ModelRunner_execute_materialization (dbt:=dbt_ok)
                     project0 (adapter_ok [] []) node_a tt graph_with_macro
                     0 ∅ 0 eq_refl)
              table_macro
              (<["main" := {[ "status" := VStr "CREATE TABLE" ]}]> ∅) 0
              {[ "status" := VStr "CREATE TABLE" ]} (VStr "CREATE TABLE")
              _ eq_refl _ _).
    + vm_compute. reflexivity.
    + vm_compute. reflexivity.
    + vm_compute. reflexivity.
  - refine (proj1 (ModelRunner_execute_materialization (dbt:=dbt_ok)
                     project0 (adapter_ok [] []) node_a tt graph0
                     0 ∅ 0 eq_refl) _).
    vm_compute. reflexivity.
Defined.

(** C4 on the graph with schemas x, y and z (z only on an ephemeral
    model) when x exists: exactly y is created. *)
Lemma create_schemas_creates_missing_witness :
  models_have_schema (dbt:=dbt_ok) graph_xyz
  ∧ get_existing_schemas_impl (adapter_ok [VStr "x"] [])
      (run_environment project0) 0 = (Return [VStr "x"], 0)
  ∧ (∀ s w', returns (fst (create_schema_impl (adapter_ok [VStr "x"] [])
                             (run_environment project0) s w')))
  ∧ trace (create_schemas (dbt:=dbt_ok) project0 (adapter_ok [VStr "x"] [])
             graph_xyz 0) =
      [EGetExistingSchemas (run_environment project0);
       ECreateSchema (run_environment project0) (VStr "y")]
  ∧ ∃ created : list PyVal,
      trace (create_schemas (dbt:=dbt_ok) project0
               (adapter_ok [VStr "x"] []) graph_xyz 0) =
        EGetExistingSchemas (run_environment project0)
        :: map (ECreateSchema (run_environment project0)) created
      ∧ NoDup created
      ∧ (∀ s, s ∈ created ↔
              required_schema (dbt:=dbt_ok) graph_xyz s ∧ s ∉ [VStr "x"]).
Proof.
  assert (Hg : models_have_schema (dbt:=dbt_ok) graph_xyz).
  { intros n Hn _ _. simpl in Hn.
    repeat (apply elem_of_cons in Hn as [->|Hn]);
      [by eexists..|by apply elem_of_nil in Hn]. }
  assert (Hcreate : ∀ s w',
    returns (fst (create_schema_impl (adapter_ok [VStr "x"] [])
                    (run_environment project0) s w'))).
  { intros s w'. by eexists. }
  split; [exact Hg|]. split; [reflexivity|]. split; [exact Hcreate|].
  split; [vm_compute; reflexivity|].
  destruct (create_schemas_creates_missing (dbt:=dbt_ok) project0
              (adapter_ok [VStr "x"] []) graph_xyz 0 [VStr "x"] 0
              Hg eq_refl Hcreate)
    as (created & Htr & _ & Hnodup & Hiff & _).
  exists created. split; [exact Htr|]. split; [exact Hnodup|exact Hiff].
Defined.

(** C6 as amended, on two rows: the fault has the descriptive message. *)
Lemma execute_test_on_fetched_rows_witness :
  execute_and_fetch_impl (adapter_ok [] [[VInt 3]; [VInt 4]])
    (run_environment project0) (dict_get node_t "wrapped_sql")
    (dict_get node_t "name") true 0 =
    (Return (VStr "SELECT", [[VInt 3]; [VInt 4]]), 0)
  ∧ outcome (execute_test (adapter_ok [] [[VInt 3]; [VInt 4]])
               (run_environment project0) node_t 0) =
    Raise (RuntimeError "Bad test t: Returned 2 rows and 1 cols").
Proof.
  split; [reflexivity|].
  destruct (execute_test_on_fetched_rows
              (adapter_ok [] [[VInt 3]; [VInt 4]])
              (run_environment project0) node_t 0 (VStr "SELECT")
              [[VInt 3]; [VInt 4]] 0 eq_refl) as (_ & Hmany & _).
  rewrite (Hmany [VInt 3] [[VInt 4]] eq_refl); [|discriminate].
  vm_compute. reflexivity.
Defined.

(** C6 as stated fails on one row without columns: the first cell is
    read, and what is raised is the index fault, not a fault with the
    descriptive message. *)
Lemma execute_test_zero_columns_counterexample :
  outcome (execute_test (adapter_ok [] [[]])
             (run_environment project0) node_t 0) = Raise IndexError
  ∧ ¬ ∃ msg, outcome (execute_test (adapter_ok [] [[]])
                        (run_environment project0) node_t 0)
             = Raise (RuntimeError msg).
Proof.
  split; [vm_compute; reflexivity|].
  intros [msg H]. vm_compute in H. discriminate.
Qed.

(** C5 at two hooks and at none.  With two hooks the connection is
    released after the first hook's statement, before the second hook's
    statement is sent on it, and again after the second; with no hook the
    transaction is cleared and nothing is released. *)
Theorem run_hooks_releases_inside_loop :
  trace (run_hooks (dbt:=dbt_ok) project0 (adapter_ok [] [])
           graph_two_hooks (VStr "on-run-start") 0) =
    [EClearTransaction (run_environment project0);
     ECompilerCompileNode hook1;
     EGetRendered (VStr "grant select on a");
     ECompilerCompileNode hook2;
     EGetRendered (VStr "grant select on b");
     EExecuteOne (run_environment project0) (VStr "grant select on a")
                 (VStr "master") false;
     EReleaseConnection (run_environment project0) (VStr "master");
     EExecuteOne (run_environment project0) (VStr "grant select on b")
                 (VStr "master") false;
     EReleaseConnection (run_environment project0) (VStr "master")]
  ∧ trace (run_hooks (dbt:=dbt_ok) project0 (adapter_ok [] [])
             graph0 (VStr "on-run-start") 0) =
    [EClearTransaction (run_environment project0)].
Proof. split; vm_compute; reflexivity. Qed.

(** * Further test doubles

    Collaborators that fault, for the paths on which something goes
    wrong. *)
Module Faulty.

(** An adapter like [adapter_ok] whose release faults with [e]. *)
Definition adapter_release_faulty (e : Exn) : Adapter nat :=
  {| adapter_type := "postgres";
     release_connection_impl := λ _ _ w, (Raise e, w);
     get_existing_schemas_impl := λ _ w, (Return [], w);
     create_schema_impl := λ _ _ w, (Return tt, w);
     clear_transaction_impl := λ _ w, (Return (VStr "master"), w);
     execute_one_impl := λ _ _ _ _ w, (Return tt, w);
     execute_and_fetch_impl := λ _ _ _ _ w, (Return (VStr "SELECT", []), w)
  |}.

(** An adapter that cannot list the schemas. *)
Definition adapter_schemas_faulty (e : Exn) : Adapter nat :=
  {| adapter_type := "postgres";
     release_connection_impl := λ _ _ w, (Return tt, w);
     get_existing_schemas_impl := λ _ w, (Raise e, w);
     create_schema_impl := λ _ _ w, (Return tt, w);
     clear_transaction_impl := λ _ w, (Return (VStr "master"), w);
     execute_one_impl := λ _ _ _ _ w, (Return tt, w);
     execute_and_fetch_impl := λ _ _ _ _ w, (Return (VStr "SELECT", []), w)
  |}.

(** An adapter that cannot clear the transaction. *)
Definition adapter_clear_faulty (e : Exn) : Adapter nat :=
  {| adapter_type := "postgres";
     release_connection_impl := λ _ _ w, (Return tt, w);
     get_existing_schemas_impl := λ _ w, (Return [], w);
     create_schema_impl := λ _ _ w, (Return tt, w);
     clear_transaction_impl := λ _ w, (Raise e, w);
     execute_one_impl := λ _ _ _ _ w, (Return tt, w);
     execute_and_fetch_impl := λ _ _ _ _ w, (Return (VStr "SELECT", []), w)
  |}.

(** An adapter on which the statement [bad] faults with [e] and every
    other statement succeeds. *)
Definition adapter_statement_faulty (bad : PyVal) (e : Exn) : Adapter nat :=
  {| adapter_type := "postgres";
     release_connection_impl := λ _ _ w, (Return tt, w);
     get_existing_schemas_impl := λ _ w, (Return [], w);
     create_schema_impl := λ _ _ w, (Return tt, w);
     clear_transaction_impl := λ _ w, (Return (VStr "master"), w);
     execute_one_impl := λ _ sql _ _ w,
       (if bool_decide (sql = bad) then Raise e else Return tt, w);
     execute_and_fetch_impl := λ _ _ _ _ w, (Return (VStr "SELECT", []), w)
  |}.

(** The rest of dbt in strict mode, with a validation that rejects the
    hook dictionaries whose statement is [bad]. *)
Definition dbt_strict (bad : PyVal) (e : Exn) : Dbt nat Z :=
  {| time_zero := 0%Z;
     time_sub := Z.sub;
     NodeType_Model := VStr "model";
     NodeType_Archive := VStr "archive";
     NodeType_Operation := VStr "operation";
     RunHookType_Start := VStr "on-run-start";
     RunHookType_End := VStr "on-run-end";
     get_materialization := λ n, dict_get n "materialized";
     is_type := λ n t, py_eq (dict_get n "resource_type") t;
     get_nodes_by_tags := λ ns tags t,
       List.filter (λ n, py_eq (dict_get n "resource_type") t
                         && bool_decide (dict_get n "tags" ∈ tags)) ns;
     get_materialization_macro := λ g mat ty,
       assoc (py_str mat +:+ "_" +:+ ty) (macros g);
     to_string := exn_message;
     str_exn := exn_message;
     red := λ s, s;
     time_time_impl := λ w, (Z.of_nat w, S w);
     Compiler_compile_node := λ _ n _ w, (Return n, w);
     get_rendered := λ sql _ w, (Return sql, w);
     write_node := λ _ _ _ _ w, (Return (VStr "target/compiled/x.sql"), w);
     get_hook_dict := λ statement, {[ "sql" := statement ]};
     validate_hook := λ hook w,
       (if bool_decide (dict_get hook "sql" = bad) then Raise e
        else Return tt, w);
     STRICT_MODE := true;
     generate := λ _ _ _ w, (Return ∅, w);
     run_started_at := VStr "2018-01-01";
     invocation_id := VStr "0000" |}.

Definition value_error : Exn := OtherException "ValueError" "bad value".
Definition db_error : Exn := RuntimeException "connection lost" None.




Definition ok_compile_runner : Runner nat unit Z :=
  CompileRunner (dbt:=dbt_ok) project0 (adapter_ok [] []) node_a 0 1.

Definition release_faulty_runner : Runner nat unit Z :=
  CompileRunner (dbt:=dbt_ok) project0 (adapter_release_faulty db_error)
    node_a 0 1.

Definition one_row_runner : Runner nat unit Z :=
  TestRunner (dbt:=dbt_ok) project0 (adapter_ok [] [[VInt 0]]) node_t 0 1.

(** A model that was compiled to SQL, and an archive. *)
Definition node_sql : Node :=
  <["injected_sql" := VStr "select 1"]> node_a.
Definition node_archive : Node :=
  <["resource_type" := VStr "archive"]> node_sql.


(** The graph of three models, the other way round. *)
Definition graph_zyx : FlatGraph nat :=
  graph_of [("model.c", model_node "c" "z" "ephemeral");
            ("model.b", model_node "b" "y" "view");
            ("model.a", model_node "a" "x" "table")].

(** The hook dictionaries of the two hooks of [graph_two_hooks]. *)
Definition hook1_dict : gmap string PyVal :=
  {[ "sql" := VStr "grant select on a" ]}.
Definition hook2_dict : gmap string PyVal :=
  {[ "sql" := VStr "grant select on b" ]}.

End Faulty.

(** * Further properties *)

Section FurtherProperties.

Context {World Existing Time : Type} {dbt : Dbt World Time}.

Implicit Types (self : Runner World Existing Time) (g : FlatGraph World).
Implicit Types (ex : Existing) (w : World) (e : Exn) (ev : Event).
Implicit Types (r result : RunModelResult Time) (n cn : Node).





(** The log line of the clause for the remaining faults. *)
Definition unhandled_error_line self e : string :=
  red ("Unhandled error while executing "
       +:+ py_str (dict_get (self_node self) "build_path"))
  +:+ nl +:+ strip (str_exn e).


(** The two calls of the schema phase. *)
Definition is_schema_call ev : bool :=
  match ev with
  | EGetExistingSchemas _ | ECreateSchema _ _ => true
  | _ => false
  end.

(** The calls of the second loop of [run_hooks]. *)
Definition statement_event ev : bool :=
  match ev with
  | EValidateHook _ | EExecuteOne _ _ _ _ | EReleaseConnection _ _ => true
  | _ => false
  end.

Definition is_validate ev : bool :=
  match ev with EValidateHook _ => true | _ => false end.

Definition is_statement ev : bool :=
  match ev with EExecuteOne _ _ _ _ => true | _ => false end.

(** A non-ephemeral model of the graph has no ["schema"] entry. *)
Definition model_without_schema g : Prop :=
  ∃ n, n ∈ map snd (nodes g) ∧ is_model n = true
       ∧ is_ephemeral n = false ∧ n !! "schema" = None.

(** The statement that the second loop of [run_hooks] sends for a hook
    dictionary: [hook.get('sql', '')]. *)
Definition hook_sql (hook : gmap string PyVal) : PyVal :=
  default (VStr "") (hook !! "sql").

(** In a list of calls, every statement comes right after a validation. *)
Fixpoint validated_before (l : list Event) : Prop :=
  match l with
  | [] => True
  | ev :: l' =>
      match l' with
      | ev' :: _ => is_statement ev' = true → is_validate ev = true
      | [] => True
      end ∧ validated_before l'
  end.

(** A list of calls in which every statement comes right after a
    validation, and which does not open with a statement. *)
Definition well_validated (l : list Event) : Prop :=
  validated_before l
  ∧ match l with ev :: _ => is_statement ev = false | [] => True end.

(** ** [safe_run], path by path *)

(** [safe_run] in full, from the two readings of the clock, the guarded
    block and the answer to the release. *)
Lemma safe_run_eq self g ex w t0 w0 o w1 :
  time_time_impl w = (t0, w0) →
  release_connection_impl (self_adapter self) (self_profile self)
    (dict_get (self_node self) "name")
    (world (safe_run_try self g ex w0)) = (o, w1) →
  safe_run self g ex w =
  match o, outcome (safe_run_try self g ex w0) with
  | Return _, Return r =>
      mkRun (Return (set_execution_time r
                       (time_sub (fst (time_time_impl w1)) t0)))
            (trace (safe_run_try self g ex w0) ++ [release_of self])
            (snd (time_time_impl w1))
  | Return _, Raise e =>
      mkRun (Raise e)
            (trace (safe_run_try self g ex w0) ++ [release_of self]) w1
  | Raise e, _ =>
      mkRun (Raise e)
            (trace (safe_run_try self g ex w0) ++ [release_of self]) w1
  end.
Proof.
  unfold safe_run, safe_run_finally, release_connection, release_of.
  generalize (safe_run_try self g ex). intros body Ht Hrel.
  unfold bind, try_finally, extern, ret, time_time.
  rewrite Ht. simpl. rewrite Hrel. simpl.
  destruct o as [[]|e]; simpl; [|done].
  destruct (outcome (body w0)); simpl; [|done].
  destruct (time_time_impl w1). simpl. by rewrite app_nil_r.
Qed.



Lemma safe_run_except_unhandled self result e w :
  is_catchable e = false → is_internal e = false →
  safe_run_except self result e w =
  mkRun (Raise e)
        (if is_Exception e
         then [ELoggerDebug (unhandled_error_line self e)] else [])
        w.
Proof.
  intros Hc Hi. unfold safe_run_except. rewrite Hc, Hi.
  by destruct (is_Exception e).
Qed.



(** X3.  A fault of the release itself takes the place of whatever the
    guarded block produced, a result as well as another fault: [safe_run]
    raises it, and the clock is not read again. *)
Theorem safe_run_release_fault_masks self g ex w e w1 :
  release_connection_impl (self_adapter self) (self_profile self)
    (dict_get (self_node self) "name")
    (world (safe_run_try self g ex (after_clock w))) = (Raise e, w1) →
  safe_run self g ex w =
  mkRun (Raise e)
        (trace (safe_run_try self g ex (after_clock w)) ++ [release_of self])
        w1.
Proof.
  intros Hrel. unfold after_clock in *.
  destruct (time_time_impl w) as [t0 w0] eqn:Ht. simpl in *.
  by rewrite (safe_run_eq self g ex w t0 w0 _ w1 Ht Hrel).
Qed.

(** X4.  On the path without fault of a node that is not an ephemeral
    model, [run] is given the node that [compile] returned, and its
    result is handed through with one change: the execution time it came
    with is replaced by the difference between the reading of the clock
    after the release and the reading before [compile].  The calls are
    those of [compile], those of [run] and the release. *)
Theorem safe_run_hands_result_through self g ex w cn r0 w1 :
  is_ephemeral_model (self_node self) = false →
  outcome (compile self g (after_clock w)) = Return cn →
  outcome (run self cn ex g (world (compile self g (after_clock w))))
    = Return r0 →
  release_connection_impl (self_adapter self) (self_profile self)
    (dict_get (self_node self) "name")
    (world (run self cn ex g (world (compile self g (after_clock w)))))
    = (Return tt, w1) →
  safe_run self g ex w =
  mkRun (Return (set_execution_time r0
                   (time_sub (fst (time_time_impl w1))
                             (fst (time_time_impl w)))))
        (trace (compile self g (after_clock w))
         ++ trace (run self cn ex g
                     (world (compile self g (after_clock w))))
         ++ [release_of self])
        (snd (time_time_impl w1)).
Proof.
  intros He Hc Hx Hrel. unfold after_clock in *.
  destruct (time_time_impl w) as [t0 w0] eqn:Ht. simpl in *.
  pose proof (safe_run_try_run_returns self g ex w0 cn r0 Hc He Hx) as Htry.
  cbn zeta in Htry.
  rewrite (safe_run_eq self g ex w t0 w0 (Return tt) w1 Ht).
  - rewrite Htry. cbn [outcome trace world]. by rewrite <- app_assoc.
  - by rewrite Htry.
Qed.

(** ** The required schemas *)

Lemma get_model_schemas_loop_missing (ns : list Node) (acc : gset PyVal) w :
  (∃ n, n ∈ ns ∧ is_model n = true ∧ is_ephemeral n = false
        ∧ n !! "schema" = None) →
  get_model_schemas_loop ns acc w = mkRun (Raise (KeyError "schema")) [] w.
Proof.
  revert acc. induction ns as [|n0 ns IH]; intros acc (n & Hn & Hm & He & Hs).
  - by apply elem_of_nil in Hn.
  - simpl. apply elem_of_cons in Hn as [->|Hn].
    + rewrite Hm, He. simpl. unfold bind, dict_getitem. by rewrite Hs.
    + destruct (is_model n0 && negb (is_ephemeral n0)); [|by eauto 10].
      unfold bind, dict_getitem.
      destruct (n0 !! "schema") as [s0|]; [|done]. simpl.
      rewrite (IH (acc ∪ {[s0]})) by eauto 10. done.
Qed.

(** Either some non-ephemeral model lacks its schema, or all have one. *)
Lemma schema_entries_dichotomy (ns : list Node) :
  (∃ n, n ∈ ns ∧ is_model n = true ∧ is_ephemeral n = false
        ∧ n !! "schema" = None)
  ∨ (∀ n, n ∈ ns → is_model n = true → is_ephemeral n = false →
          is_Some (n !! "schema")).
Proof.
  induction ns as [|n0 ns [IH|IH]].
  - right. intros n Hn. by apply elem_of_nil in Hn.
  - left. destruct IH as (n & Hn & H). exists n. split; [by right|done].
  - destruct (is_model n0) eqn:Hm; [destruct (is_ephemeral n0) eqn:He;
      [|destruct (n0 !! "schema") as [s0|] eqn:Hs]|].
    + right. intros n Hn. apply elem_of_cons in Hn as [->|Hn];
        [congruence|by apply IH].
    + right. intros n Hn. apply elem_of_cons in Hn as [->|Hn];
        [by eauto|by apply IH].
    + left. exists n0. split; [by left|done].
    + right. intros n Hn. apply elem_of_cons in Hn as [->|Hn];
        [congruence|by apply IH].
Qed.

Lemma models_have_schema_not_missing g :
  models_have_schema g → ¬ model_without_schema g.
Proof.
  intros Hg (n & Hn & Hm & He & Hs).
  destruct (Hg n Hn Hm He) as [s Hs']. congruence.
Qed.


(** X6.  The required schemas depend only on which nodes the graph has,
    not on their order or on repetitions: two graphs with the same nodes
    give the same run of [get_model_schemas], the same set or the same
    fault. *)
Theorem get_model_schemas_order_independent g1 g2 w :
  (∀ n, n ∈ map snd (nodes g1) ↔ n ∈ map snd (nodes g2)) →
  get_model_schemas g1 w = get_model_schemas g2 w.
Proof.
  intros Hsame.
  destruct (schema_entries_dichotomy (map snd (nodes g1))) as [H1|H1].
  - assert (H2 : model_without_schema g2).
    { destruct H1 as (n & Hn & H). exists n. split; [by apply Hsame|done]. }
    unfold get_model_schemas.
    rewrite (get_model_schemas_loop_missing _ _ _ H1).
    by rewrite (get_model_schemas_loop_missing _ _ _ H2).
  - assert (H2 : models_have_schema g2).
    { intros n Hn. apply H1. by apply Hsame. }
    destruct (get_model_schemas_spec g1 w H1) as (S1 & -> & Hiff1).
    destruct (get_model_schemas_spec g2 w H2) as (S2 & -> & Hiff2).
    f_equal. f_equal. apply set_eq. intros s. rewrite Hiff1, Hiff2.
    unfold required_schema. split.
    + intros (n & Hn & H). exists n. split; [by apply Hsame|done].
    + intros (n & Hn & H). exists n. split; [by apply Hsame|done].
Qed.

(** The calls of [create_schemas] are calls of the schema phase. *)
Lemma create_schemas_calls project adapter g w :
  Forall (λ ev, is_schema_call ev = true)
         (trace (create_schemas project adapter g w)).
Proof.
  unfold create_schemas.
  destruct (schema_entries_dichotomy (map snd (nodes g))) as [H|H].
  - unfold bind. unfold get_model_schemas.
    rewrite (get_model_schemas_loop_missing _ _ _ H). constructor.
  - destruct (get_model_schemas_spec g w H) as (S & HS & _).
    rewrite (bind_pure _ _ _ _ HS).
    apply Forall_trace_bind; [by apply Forall_trace_extern|].
    intros existing w1. apply Forall_trace_for_each.
    intros s w2. by apply Forall_trace_extern.
Qed.

(** X7.  [before_run] runs the start hooks only after the schemas were
    created: when [create_schemas] faults, in listing the schemas or in
    creating one, [before_run] is that faulting run, and its calls are
    schema calls only, so that no transaction is cleared and no hook is
    compiled or sent; when it returns, the calls of [before_run] are
    those of [create_schemas] followed by those of the hooks tagged for
    the start, run in the world that the schema creation left. *)
Theorem before_run_creates_schemas_first project adapter g w :
  (∀ e, outcome (create_schemas project adapter g w) = Raise e →
        ModelRunner_before_run project adapter g w
          = create_schemas project adapter g w
        ∧ Forall (λ ev, is_schema_call ev = true)
                 (trace (ModelRunner_before_run project adapter g w)))
  ∧ (returns (outcome (create_schemas project adapter g w)) →
     trace (ModelRunner_before_run project adapter g w) =
       trace (create_schemas project adapter g w)
       ++ trace (safe_run_hooks project adapter g RunHookType_Start
                   (world (create_schemas project adapter g w)))
     ∧ outcome (ModelRunner_before_run project adapter g w) =
       outcome (safe_run_hooks project adapter g RunHookType_Start
                  (world (create_schemas project adapter g w)))).
Proof.
  split.
  - intros e He.
    assert (Heq : ModelRunner_before_run project adapter g w
                  = create_schemas project adapter g w).
    { unfold ModelRunner_before_run, bind. rewrite He. rewrite <- He.
      by destruct (create_schemas project adapter g w). }
    split; [done|]. rewrite Heq. apply create_schemas_calls.
  - intros [[] Hret]. unfold ModelRunner_before_run, bind.
    by rewrite Hret.
Qed.

(** ** Hooks *)

(** X8.  [safe_run_hooks] swallows nothing: its outcome and the world it
    leaves are those of [run_hooks]; it adds to the calls of [run_hooks]
    at most log lines, none when [run_hooks] returns, and for a
    [RuntimeException] the one line that names the hook type. *)
Theorem safe_run_hooks_swallows_nothing project adapter g hook_type w :
  outcome (safe_run_hooks project adapter g hook_type w)
    = outcome (run_hooks project adapter g hook_type w)
  ∧ world (safe_run_hooks project adapter g hook_type w)
    = world (run_hooks project adapter g hook_type w)
  ∧ ∃ log,
      trace (safe_run_hooks project adapter g hook_type w)
        = trace (run_hooks project adapter g hook_type w) ++ log
      ∧ Forall (λ ev, ∃ line, ev = ELoggerInfo line) log
      ∧ (returns (outcome (run_hooks project adapter g hook_type w)) →
         log = [])
      ∧ (∀ msg (carried : option Node),
           outcome (run_hooks project adapter g hook_type w)
             = Raise (RuntimeException msg carried) →
         log = [ELoggerInfo ("Database error while running "
                             +:+ py_str hook_type)]).
Proof.
  unfold safe_run_hooks, try_except.
  destruct (outcome (run_hooks project adapter g hook_type w))
    as [[]|e] eqn:Hr.
  - repeat split. exists []. repeat split; [constructor|discriminate].
  - destruct (is_RuntimeException e) eqn:He.
    + repeat split. eexists. split; [reflexivity|].
      split; [repeat constructor; by eexists|].
      split; [intros [? ?]; discriminate|done].
    + repeat split. exists []. split; [done|]. split; [constructor|].
      split; [done|]. intros msg carried [= ->]. discriminate.
Qed.

(** [run_hooks] when the transaction could be cleared. *)
Lemma run_hooks_eq project adapter g hook_type w conn_name w1 :
  clear_transaction_impl adapter (run_environment project) w
    = (Return conn_name, w1) →
  run_hooks project adapter g hook_type w =
  let c := run_hooks_compile adapter project g
             (get_nodes_by_tags (map snd (nodes g)) [hook_type]
                                NodeType_Operation) [] w1 in
  match outcome c with
  | Return compiled_hooks =>
      let x := for_each compiled_hooks
                 (run_hooks_body adapter (run_environment project) conn_name)
                 (world c) in
      mkRun (outcome x)
            (EClearTransaction (run_environment project)
             :: trace c ++ trace x)
            (world x)
  | Raise e =>
      mkRun (Raise e)
            (EClearTransaction (run_environment project) :: trace c)
            (world c)
  end.
Proof.
  intros Hclear. unfold run_hooks.
  rewrite (bind_extern _ _ _ _ _ _ Hclear). unfold bind.
  by destruct (outcome (run_hooks_compile _ _ _ _ _ _)).
Qed.

Lemma run_hooks_loop_calls adapter profile conn_name
    (hooks : list (gmap string PyVal)) w :
  Forall (λ ev, statement_event ev = true)
         (trace (for_each hooks (run_hooks_body adapter profile conn_name)
                          w)).
Proof.
  apply Forall_trace_for_each. intros hook w'.
  unfold run_hooks_body, release_connection.
  apply Forall_trace_bind.
  - destruct STRICT_MODE; [by apply Forall_trace_extern|constructor].
  - intros _ w2. apply Forall_trace_bind; [by apply Forall_trace_extern|].
    intros _ w3. by apply Forall_trace_extern.
Qed.

(** X9.  In [run_hooks] the transaction is cleared, then every hook is
    compiled, and only then are statements sent: the calls are the
    clearing, calls of compilation, and calls of the second loop, in
    this order.  So when the compilation of any hook faults, that fault
    leaves [run_hooks] and no statement of any hook has been sent. *)
Theorem run_hooks_compiles_before_statements
    project adapter g hook_type w :
  ∃ compiling sending,
    trace (run_hooks project adapter g hook_type w) =
      EClearTransaction (run_environment project) :: compiling ++ sending
    ∧ Forall (λ ev, compile_event ev = true) compiling
    ∧ Forall (λ ev, statement_event ev = true) sending
    ∧ (∀ conn_name w1 e,
         clear_transaction_impl adapter (run_environment project) w
           = (Return conn_name, w1) →
         outcome (run_hooks_compile adapter project g
                    (get_nodes_by_tags (map snd (nodes g)) [hook_type]
                                       NodeType_Operation) [] w1)
           = Raise e →
         sending = []
         ∧ outcome (run_hooks project adapter g hook_type w) = Raise e).
Proof.
  destruct (clear_transaction_impl adapter (run_environment project) w)
    as [[conn_name|e0] w1] eqn:Hclear.
  - rewrite (run_hooks_eq _ _ _ _ _ _ _ Hclear). cbn zeta.
    set (c := run_hooks_compile adapter project g _ [] w1).
    destruct (outcome c) as [compiled_hooks|e] eqn:Hc.
    + exists (trace c), (trace (for_each compiled_hooks
        (run_hooks_body adapter (run_environment project) conn_name)
        (world c))).
      split; [done|]. split; [apply run_hooks_compile_calls|].
      split; [apply run_hooks_loop_calls|].
      intros conn' w' e' [= <- <-]. fold c. rewrite Hc. discriminate.
    + exists (trace c), []. split; [by rewrite app_nil_r|].
      split; [apply run_hooks_compile_calls|]. split; [constructor|].
      intros conn' w' e' [= <- <-]. fold c. rewrite Hc.
      by intros [= <-].
  - exists [], []. unfold run_hooks, bind, extern. rewrite Hclear.
    split; [done|]. split; [constructor|]. split; [constructor|].
    intros conn' w' e' [=].
Qed.

(** The hook dictionaries come from the hooks, one each and in order:
    each is read off the statement of the compiled hook. *)
Lemma run_hooks_compile_in_order adapter project g (hooks : list Node)
    (acc : list (gmap string PyVal)) w hs :
  outcome (run_hooks_compile adapter project g hooks acc w) = Return hs →
  ∃ new, hs = acc ++ new
    ∧ Forall2 (λ hook h, ∃ compiled w' statement,
                 outcome (compile_node adapter project hook g w')
                   = Return compiled
                 ∧ compiled !! "wrapped_sql" = Some statement
                 ∧ h = get_hook_dict statement)
              hooks new.
Proof.
  revert acc w. induction hooks as [|hook hooks IH]; intros acc w; simpl.
  - intros [= <-]. exists []. split; [by rewrite app_nil_r|constructor].
  - intros H. apply bind_returns_inv in H as (compiled & Hc & H).
    apply bind_returns_inv in H as (statement & Hs & H).
    apply IH in H as (new & -> & Hnew).
    exists (get_hook_dict statement :: new).
    split; [by rewrite <- app_assoc|].
    constructor; [|done]. exists compiled, w, statement.
    split; [done|]. split; [|done].
    unfold dict_getitem in Hs.
    destruct (compiled !! "wrapped_sql"); [by injection Hs as ->|done].
Qed.

(** The second loop with an adapter that answers, without strict
    validation. *)
Lemma run_hooks_loop_returns adapter profile conn_name
    (hooks : list (gmap string PyVal)) w :
  STRICT_MODE = false →
  (∀ hook w', hook ∈ hooks →
     returns (fst (execute_one_impl adapter profile (hook_sql hook)
                     conn_name false w'))) →
  (∀ w', returns (fst (release_connection_impl adapter profile conn_name
                         w'))) →
  outcome (for_each hooks (run_hooks_body adapter profile conn_name) w)
    = Return tt
  ∧ trace (for_each hooks (run_hooks_body adapter profile conn_name) w) =
    flat_map (λ hook,
                [EExecuteOne profile (hook_sql hook) conn_name false;
                 EReleaseConnection profile conn_name]) hooks.
Proof.
  intros Hstrict Hexec Hrel. revert w.
  induction hooks as [|hook hooks IH]; intros w; simpl; [done|].
  destruct (Hexec hook w) as [[] Ho1]; [by left|].
  destruct (execute_one_impl adapter profile (hook_sql hook) conn_name
              false w) as [o1 w1] eqn:H1.
  simpl in Ho1. subst o1.
  destruct (Hrel w1) as [[] Ho2].
  destruct (release_connection_impl adapter profile conn_name w1)
    as [o2 w2] eqn:H2.
  simpl in Ho2. subst o2.
  unfold bind.
  rewrite (run_hooks_body_run _ _ _ _ _ _ _ Hstrict H1 H2).
  cbn [outcome trace world].
  destruct (IH (λ h w' Hh, Hexec h w' (list_elem_of_further _ _ _ Hh)) w2)
    as [-> ->].
  done.
Qed.

Lemma filter_statement_compile (l : list Event) :
  Forall (λ ev, compile_event ev = true) l →
  List.filter is_statement l = [].
Proof.
  induction 1 as [|ev l Hev _ IH]; simpl; [done|].
  rewrite IH. by destruct ev.
Qed.

Lemma filter_statement_loop profile conn_name
    (hooks : list (gmap string PyVal)) :
  List.filter is_statement
    (flat_map (λ hook,
                 [EExecuteOne profile (hook_sql hook) conn_name false;
                  EReleaseConnection profile conn_name]) hooks) =
  map (λ hook, EExecuteOne profile (hook_sql hook) conn_name false) hooks.
Proof. induction hooks as [|h hs IH]; simpl; [done|]. by rewrite IH. Qed.

(** X10.  When the transaction is cleared, every hook compiles and the
    adapter answers, [run_hooks] (without strict validation) returns and
    has sent one statement for each hook that [get_nodes_by_tags]
    selected, in that order, each on the connection that
    [clear_transaction] named and with [auto_begin=False]: the statement
    of a hook is the ["sql"] entry of the dictionary read off its
    compiled [wrapped_sql], or the empty string when there is no such
    entry. *)
Theorem run_hooks_one_statement_per_hook
    project adapter g hook_type w conn_name w1 hs :
  STRICT_MODE = false →
  clear_transaction_impl adapter (run_environment project) w
    = (Return conn_name, w1) →
  outcome (run_hooks_compile adapter project g
             (get_nodes_by_tags (map snd (nodes g)) [hook_type]
                                NodeType_Operation) [] w1) = Return hs →
  (∀ sql w', returns (fst (execute_one_impl adapter
                             (run_environment project) sql conn_name
                             false w'))) →
  (∀ w', returns (fst (release_connection_impl adapter
                         (run_environment project) conn_name w'))) →
  outcome (run_hooks project adapter g hook_type w) = Return tt
  ∧ List.filter is_statement (trace (run_hooks project adapter g hook_type w))
    = map (λ hook, EExecuteOne (run_environment project) (hook_sql hook)
                               conn_name false) hs
  ∧ Forall2 (λ hook h, ∃ compiled w' statement,
               outcome (compile_node adapter project hook g w')
                 = Return compiled
               ∧ compiled !! "wrapped_sql" = Some statement
               ∧ h = get_hook_dict statement)
            (get_nodes_by_tags (map snd (nodes g)) [hook_type]
                               NodeType_Operation) hs.
Proof.
  intros Hstrict Hclear Hc Hexec Hrel.
  rewrite (run_hooks_eq _ _ _ _ _ _ _ Hclear). cbn zeta. rewrite Hc.
  cbn [outcome trace world].
  destruct (run_hooks_loop_returns adapter (run_environment project)
              conn_name hs
              (world (run_hooks_compile adapter project g
                 (get_nodes_by_tags (map snd (nodes g)) [hook_type]
                                    NodeType_Operation) [] w1))
              Hstrict (λ h w' _, Hexec (hook_sql h) w') Hrel)
    as [Hout Htr].
  split; [done|]. split.
  - rewrite Htr. cbn [List.filter is_statement].
    rewrite List.filter_app.
    rewrite (filter_statement_compile _ (run_hooks_compile_calls _ _ _ _ _ _)).
    apply filter_statement_loop.
  - apply run_hooks_compile_in_order in Hc as (new & -> & Hnew). done.
Qed.

(** The second loop when the statement of one hook faults. *)
Lemma run_hooks_loop_fault adapter profile conn_name
    (pre post : list (gmap string PyVal)) hook e w :
  STRICT_MODE = false →
  (∀ h w', h ∈ pre →
     returns (fst (execute_one_impl adapter profile (hook_sql h)
                     conn_name false w'))) →
  (∀ w', returns (fst (release_connection_impl adapter profile conn_name
                         w'))) →
  (∀ w', fst (execute_one_impl adapter profile (hook_sql hook) conn_name
                false w') = Raise e) →
  outcome (for_each (pre ++ hook :: post)
             (run_hooks_body adapter profile conn_name) w) = Raise e
  ∧ trace (for_each (pre ++ hook :: post)
             (run_hooks_body adapter profile conn_name) w) =
    flat_map (λ h, [EExecuteOne profile (hook_sql h) conn_name false;
                    EReleaseConnection profile conn_name]) pre
    ++ [EExecuteOne profile (hook_sql hook) conn_name false].
Proof.
  intros Hstrict Hexec Hrel Hbad. unfold hook_sql in *. revert w.
  induction pre as [|h pre IH]; intros w; simpl.
  - unfold bind, run_hooks_body. rewrite Hstrict.
    rewrite (bind_pure (ret tt) _ w tt) by done.
    unfold bind, extern. specialize (Hbad w).
    destruct (execute_one_impl adapter profile _ conn_name false w)
      as [o w']. simpl in Hbad. subst o. done.
  - destruct (Hexec h w) as [[] Ho1]; [by left|].
    destruct (execute_one_impl adapter profile _ conn_name false w)
      as [o1 w1] eqn:H1.
    simpl in Ho1. subst o1.
    destruct (Hrel w1) as [[] Ho2].
    destruct (release_connection_impl adapter profile conn_name w1)
      as [o2 w2] eqn:H2.
    simpl in Ho2. subst o2.
    unfold bind.
    rewrite (run_hooks_body_run _ _ _ _ _ _ _ Hstrict H1 H2).
    cbn [outcome trace world].
    destruct (IH (λ h' w' Hh, Hexec h' w' (list_elem_of_further _ _ _ Hh))
                 w2) as [-> ->].
    done.
Qed.

(** X11.  When the statement of a hook faults, [run_hooks] stops there:
    the fault leaves it, the hooks after that one are not sent, and the
    faulting statement is the last call, so that the connection is not
    released after it (the release follows the statement inside the
    loop and is not in a [finally] clause). *)
Theorem run_hooks_stops_at_faulting_statement
    project adapter g hook_type w conn_name w1 pre hook post e :
  STRICT_MODE = false →
  clear_transaction_impl adapter (run_environment project) w
    = (Return conn_name, w1) →
  outcome (run_hooks_compile adapter project g
             (get_nodes_by_tags (map snd (nodes g)) [hook_type]
                                NodeType_Operation) [] w1)
    = Return (pre ++ hook :: post) →
  (∀ h w', h ∈ pre →
     returns (fst (execute_one_impl adapter (run_environment project)
                     (hook_sql h) conn_name false w'))) →
  (∀ w', returns (fst (release_connection_impl adapter
                         (run_environment project) conn_name w'))) →
  (∀ w', fst (execute_one_impl adapter (run_environment project)
                (hook_sql hook) conn_name false w') = Raise e) →
  outcome (run_hooks project adapter g hook_type w) = Raise e
  ∧ List.filter is_statement (trace (run_hooks project adapter g hook_type w))
    = map (λ h, EExecuteOne (run_environment project) (hook_sql h)
                            conn_name false) (pre ++ [hook])
  ∧ last (trace (run_hooks project adapter g hook_type w))
    = Some (EExecuteOne (run_environment project) (hook_sql hook)
                        conn_name false).
Proof.
  intros Hstrict Hclear Hc Hexec Hrel Hbad.
  rewrite (run_hooks_eq _ _ _ _ _ _ _ Hclear). cbn zeta. rewrite Hc.
  cbn [outcome trace world].
  destruct (run_hooks_loop_fault adapter (run_environment project)
              conn_name pre post hook e
              (world (run_hooks_compile adapter project g
                 (get_nodes_by_tags (map snd (nodes g)) [hook_type]
                                    NodeType_Operation) [] w1))
              Hstrict Hexec Hrel Hbad) as [Hout Htr].
  split; [done|]. rewrite Htr. split.
  - cbn [List.filter is_statement].
    rewrite !List.filter_app.
    rewrite (filter_statement_compile _ (run_hooks_compile_calls _ _ _ _ _ _)).
    rewrite filter_statement_loop, map_app. done.
  - rewrite app_comm_cons, !app_assoc. apply last_snoc.
Qed.

(** ** Strict validation *)

Lemma well_validated_app (l1 l2 : list Event) :
  well_validated l1 → well_validated l2 → well_validated (l1 ++ l2).
Proof.
  intros [H1 Hh1] [H2 Hh2]. split.
  - clear Hh1. induction l1 as [|ev l1 IH]; simpl; [done|].
    destruct H1 as [Hev H1]. split; [|by apply IH].
    destruct l1 as [|ev' l1]; simpl.
    + destruct l2 as [|ev2 l2]; [done|]. intros Hs. congruence.
    + done.
  - destruct l1; [done|]. done.
Qed.

Lemma well_validated_no_statement (l : list Event) :
  Forall (λ ev, is_statement ev = false) l → well_validated l.
Proof.
  intros H. split.
  - induction H as [|ev l Hev Hl IH]; simpl; [done|].
    split; [|done]. destruct Hl as [|ev' l' Hev' _]; [done|].
    intros Hs. congruence.
  - by destruct H.
Qed.

Lemma run_hooks_body_well_validated adapter profile conn_name
    (hook : gmap string PyVal) w :
  STRICT_MODE = true →
  well_validated (trace (run_hooks_body adapter profile conn_name hook w)).
Proof.
  intros Hstrict. unfold run_hooks_body, release_connection.
  rewrite Hstrict. unfold bind, extern.
  destruct (validate_hook hook w) as [[[]|e] w1]; simpl; [|by repeat split].
  destruct (execute_one_impl _ _ _ _ _ _) as [[[]|e] w2]; simpl;
    [|by repeat split].
  destruct (release_connection_impl _ _ _ _) as [o w3]; simpl.
  repeat split; done.
Qed.

Lemma for_each_well_validated adapter profile conn_name
    (hooks : list (gmap string PyVal)) w :
  STRICT_MODE = true →
  well_validated
    (trace (for_each hooks (run_hooks_body adapter profile conn_name) w)).
Proof.
  intros Hstrict. revert w.
  induction hooks as [|hook hooks IH]; intros w; simpl; [by split|].
  unfold bind.
  pose proof (run_hooks_body_well_validated adapter profile conn_name hook w
                Hstrict) as Hb.
  destruct (outcome (run_hooks_body adapter profile conn_name hook w));
    cbn [trace]; [|done].
  by apply well_validated_app.
Qed.

Lemma compile_calls_no_statement (l : list Event) :
  Forall (λ ev, compile_event ev = true) l →
  Forall (λ ev, is_statement ev = false) l.
Proof. intros H. eapply Forall_impl; [exact H|]. by intros []. Qed.

(** X12.  In strict mode no hook statement is sent unvalidated: in the
    calls of [run_hooks] every statement comes right after a call to
    [validate_hook], and a hook whose validation faults is not sent.
    Without strict mode [validate_hook] is never called. *)
Theorem run_hooks_validates_in_strict_mode project adapter g hook_type w :
  (STRICT_MODE = true →
     validated_before (trace (run_hooks project adapter g hook_type w))
     ∧ ∀ conn_name hook e w0 w1,
         validate_hook hook w0 = (Raise e, w1) →
         run_hooks_body adapter (run_environment project) conn_name hook w0
         = mkRun (Raise e) [EValidateHook (dict_get hook "sql")] w1)
  ∧ (STRICT_MODE = false →
     Forall (λ ev, is_validate ev = false)
            (trace (run_hooks project adapter g hook_type w))).
Proof.
  split.
  - intros Hstrict. split.
    + destruct (clear_transaction_impl adapter (run_environment project) w)
        as [[conn_name|e0] w1] eqn:Hclear.
      * rewrite (run_hooks_eq _ _ _ _ _ _ _ Hclear). cbn zeta.
        set (c := run_hooks_compile adapter project g _ [] w1).
        assert (Hc : well_validated (trace c)).
        { apply well_validated_no_statement, compile_calls_no_statement,
            run_hooks_compile_calls. }
        destruct (outcome c); cbn [trace];
          apply (well_validated_app
                   [EClearTransaction (run_environment project)]);
          first [done | by repeat split | idtac].
        apply well_validated_app; [done|].
        by apply for_each_well_validated.
      * unfold run_hooks, bind, extern. rewrite Hclear. by repeat split.
    + intros conn_name hook e w0 w1 Hv.
      unfold run_hooks_body. rewrite Hstrict. unfold bind, extern.
      by rewrite Hv.
  - intros Hstrict. unfold run_hooks.
    apply Forall_trace_bind; [by apply Forall_trace_extern|].
    intros conn_name w1. apply Forall_trace_bind.
    + eapply Forall_impl; [apply run_hooks_compile_calls|]. by intros [].
    + intros hs w2. apply Forall_trace_for_each. intros hook w3.
      unfold run_hooks_body, release_connection. rewrite Hstrict.
      apply Forall_trace_bind; [constructor|].
      intros _ w4. apply Forall_trace_bind; [by apply Forall_trace_extern|].
      intros _ w5. by apply Forall_trace_extern.
Qed.

(** ** compile_node *)

Lemma extern_returns_inv {A} ev (f : World → Outcome A * World) w a :
  outcome (extern ev f w) = Return a →
  f w = (Return a, world (extern ev f w)).
Proof. unfold extern. destruct (f w) as [o w']. simpl. by intros ->. Qed.

Lemma bind_run {A B} (m : M World A) (k : A → M World B) w a t w' :
  m w = mkRun (Return a) t w' →
  bind m k w =
  mkRun (outcome (k a w')) (t ++ trace (k a w')) (world (k a w')).
Proof. intros Hm. unfold bind. by rewrite Hm. Qed.

Lemma bind_raise {A B} (m : M World A) (k : A → M World B) w e t w' :
  m w = mkRun (Raise e) t w' → bind m k w = mkRun (Raise e) t w'.
Proof. intros Hm. unfold bind. by rewrite Hm. Qed.

Lemma bind_emit {B} ev (k : unit → M World B) w :
  bind (emit ev) k w =
  mkRun (outcome (k tt w)) (ev :: trace (k tt w)) (world (k tt w)).
Proof. done. Qed.

Lemma dict_getitem_run (d : gmap string PyVal) k v w :
  d !! k = Some v → dict_getitem d k w = mkRun (Return v) [] w.
Proof. intros H. unfold dict_getitem. by rewrite H. Qed.

Lemma dict_getitem_missing (d : gmap string PyVal) k w :
  d !! k = None → dict_getitem d k w = mkRun (Raise (KeyError k)) [] w.
Proof. intros H. unfold dict_getitem. by rewrite H. Qed.

Lemma inject_runtime_config_run adapter project n w sql w' :
  get_rendered (dict_get n "wrapped_sql") (node_context adapter project n) w
    = (Return sql, w') →
  inject_runtime_config adapter project n w =
  mkRun (Return (<["wrapped_sql" := sql]> n))
        [EGetRendered (dict_get n "wrapped_sql")] w'.
Proof.
  intros Hr. unfold inject_runtime_config.
  by rewrite (bind_extern _ _ _ _ _ _ Hr).
Qed.

(** X13.  When the compiler returns a node and the renderer returns the
    runtime-rendered SQL, [compile_node] puts that SQL under
    ["wrapped_sql"] and then: faults with [KeyError] when the node has
    no ["injected_sql"] entry; returns the node as it is, without a call
    to the writer, when that entry is [None] or the node is an archive;
    and otherwise logs one line, has the injected SQL written once, and
    returns the node with the written path under ["build_path"]. *)
Theorem compile_node_writes_injected_sql
    adapter project n g w n1 w1 sql w2 :
  Compiler_compile_node project n g w = (Return n1, w1) →
  get_rendered (dict_get n1 "wrapped_sql") (node_context adapter project n1)
    w1 = (Return sql, w2) →
  (n1 !! "injected_sql" = None →
   compile_node adapter project n g w =
   mkRun (Raise (KeyError "injected_sql"))
         [ECompilerCompileNode n; EGetRendered (dict_get n1 "wrapped_sql")]
         w2)
  ∧ (∀ v, n1 !! "injected_sql" = Some v →
       is_None v = true
       ∨ is_type (<["wrapped_sql" := sql]> n1) NodeType_Archive = true →
       compile_node adapter project n g w =
       mkRun (Return (<["wrapped_sql" := sql]> n1))
             [ECompilerCompileNode n;
              EGetRendered (dict_get n1 "wrapped_sql")]
             w2)
  ∧ (∀ v unique_id path w3,
       n1 !! "injected_sql" = Some v →
       is_None v = false →
       is_type (<["wrapped_sql" := sql]> n1) NodeType_Archive = false →
       n1 !! "unique_id" = Some unique_id →
       write_node (<["wrapped_sql" := sql]> n1) (target_path project)
         "compiled" v w2 = (Return path, w3) →
       compile_node adapter project n g w =
       mkRun (Return (<["build_path" := path]>
                        (<["wrapped_sql" := sql]> n1)))
             [ECompilerCompileNode n;
              EGetRendered (dict_get n1 "wrapped_sql");
              ELoggerDebug ("Writing injected SQL for node " +:+ dquote
                            +:+ py_str unique_id +:+ dquote);
              EWriteNode (<["wrapped_sql" := sql]> n1)
                         (target_path project) v]
             w3).
Proof.
  intros Hcomp Hrender.
  assert (Hstart : ∀ k : Node → M World Node,
    bind (extern (ECompilerCompileNode n)
            (Compiler_compile_node project n g))
         (λ n, bind (inject_runtime_config adapter project n) k) w =
    mkRun (outcome (k (<["wrapped_sql" := sql]> n1) w2))
          (ECompilerCompileNode n
           :: EGetRendered (dict_get n1 "wrapped_sql")
           :: trace (k (<["wrapped_sql" := sql]> n1) w2))
          (world (k (<["wrapped_sql" := sql]> n1) w2))).
  { intros k. rewrite (bind_extern _ _ _ _ _ _ Hcomp).
    by rewrite (bind_run _ _ _ _ _ _
                  (inject_runtime_config_run _ _ _ _ _ _ Hrender)). }
  assert (Hinj : ∀ k, k ≠ "wrapped_sql" →
    (<["wrapped_sql" := sql]> n1 : Node) !! k = n1 !! k).
  { intros k Hk. by rewrite lookup_insert_ne. }
  unfold compile_node. rewrite Hstart. clear Hstart.
  split; [|split].
  - intros Hnone.
    rewrite (bind_raise _ _ _ _ _ _ (dict_getitem_missing _ _ w2
               (eq_trans (Hinj "injected_sql" ltac:(done)) Hnone))).
    done.
  - intros v Hv Hskip.
    rewrite (bind_pure _ _ _ _ (dict_getitem_run _ _ _ w2
               (eq_trans (Hinj "injected_sql" ltac:(done)) Hv))).
    replace (negb (is_None v)
             && negb (is_type (<["wrapped_sql" := sql]> n1)
                        NodeType_Archive)) with false; [done|].
    destruct Hskip as [-> | ->]; [done|]. by rewrite andb_false_r.
  - intros v unique_id path w3 Hv Hnone Harch Hid Hwrite.
    rewrite (bind_pure _ _ _ _ (dict_getitem_run _ _ _ w2
               (eq_trans (Hinj "injected_sql" ltac:(done)) Hv))).
    rewrite Hnone, Harch. cbn [negb andb].
    rewrite (bind_pure _ _ _ _ (dict_getitem_run _ _ _ w2
               (eq_trans (Hinj "unique_id" ltac:(done)) Hid))).
    rewrite bind_emit.
    rewrite (bind_pure _ _ _ _ (dict_getitem_run _ _ _ w2
               (eq_trans (Hinj "injected_sql" ltac:(done)) Hv))).
    by rewrite (bind_extern _ _ _ _ _ _ Hwrite).
Qed.

(** X14.  A node that [compile_node] returns is the node that the
    compiler returned but for two entries: ["wrapped_sql"], which holds
    what the renderer returned, and ["build_path"]; every other entry is
    as the compiler left it, and ["injected_sql"] is present. *)
Theorem compile_node_keeps_other_entries adapter project n g w n' :
  outcome (compile_node adapter project n g w) = Return n' →
  ∃ n1 w1 sql,
    Compiler_compile_node project n g w = (Return n1, w1)
    ∧ fst (get_rendered (dict_get n1 "wrapped_sql")
             (node_context adapter project n1) w1) = Return sql
    ∧ n' !! "wrapped_sql" = Some sql
    ∧ n' !! "injected_sql" = n1 !! "injected_sql"
    ∧ is_Some (n' !! "injected_sql")
    ∧ ∀ k, k ≠ "wrapped_sql" → k ≠ "build_path" → n' !! k = n1 !! k.
Proof.
  unfold compile_node. intros H.
  apply bind_returns_inv in H as (n1 & Hc & H).
  pose proof (extern_returns_inv _ _ _ _ Hc) as Hc'.
  set (w1 := world (extern (ECompilerCompileNode n)
                      (Compiler_compile_node project n g) w)) in *.
  apply bind_returns_inv in H as (n2 & Hi & H).
  unfold inject_runtime_config in Hi.
  apply bind_returns_inv in Hi as (sql & Hr & Hi).
  apply extern_returns_inv in Hr.
  cbn [outcome ret] in Hi. injection Hi as <-.
  exists n1, w1, sql. split; [done|]. split; [by rewrite Hr|].
  apply bind_returns_inv in H as (v & Hv & H).
  unfold dict_getitem in Hv.
  destruct ((<["wrapped_sql" := sql]> n1 : Node) !! "injected_sql")
    as [v'|] eqn:Hinj; [|done].
  rewrite lookup_insert_ne in Hinj by done.
  destruct (negb (is_None v)
            && negb (is_type (<["wrapped_sql" := sql]> n1) NodeType_Archive)).
  - apply bind_returns_inv in H as (uid & _ & H).
    apply bind_returns_inv in H as (u & _ & H).
    apply bind_returns_inv in H as (v2 & _ & H).
    apply bind_returns_inv in H as (path & _ & H).
    cbn [outcome ret] in H. injection H as <-.
    split; [by rewrite lookup_insert_ne, lookup_insert_eq|].
    split; [by rewrite !lookup_insert_ne|].
    split; [rewrite !lookup_insert_ne, Hinj by done; by eexists|].
    intros k Hk1 Hk2. by rewrite !lookup_insert_ne.
  - cbn [outcome ret] in H. injection H as <-.
    split; [by rewrite lookup_insert_eq|].
    split; [by rewrite !lookup_insert_ne|].
    split; [rewrite !lookup_insert_ne, Hinj by done; by eexists|].
    intros k Hk1 Hk2. by rewrite !lookup_insert_ne.
Qed.

(** ** The runner classes through [safe_run] *)

(** [execute_test] in full, from the rows that were fetched. *)
Lemma execute_test_run adapter profile test w res rows w1 :
  execute_and_fetch_impl adapter profile (dict_get test "wrapped_sql")
    (dict_get test "name") true w = (Return (res, rows), w1) →
  execute_test adapter profile test w =
  mkRun (match rows with
         | [] => Raise IndexError
         | [[]] => Raise IndexError
         | [v :: _] => Return v
         | row0 :: _ :: _ =>
             Raise (RuntimeError
                      (bad_test_message (dict_get test "name")
                         (length rows) (length row0)))
         end)
        [EExecuteAndFetch profile (dict_get test "wrapped_sql")
                          (dict_get test "name") true]
        w1.
Proof.
  intros Hfetch. unfold execute_test.
  rewrite (bind_extern _ _ _ _ _ _ Hfetch).
  unfold bind, list_getitem, ret, raise. simpl.
  destruct rows as [|row0 [|row1 rest]]; simpl; [done| |];
    by destruct row0.
Qed.


(** X15.  A [TestRunner] on a test whose query comes back with one row:
    when the node compiles and the release returns, [safe_run] returns
    the result for the compiled node whose status is the first cell of
    that row, without error.  The query and the name sent to the adapter
    are those of the compiled node, the connection released is the one
    named after the runner's node, and besides the calls of the
    compilation these are the only two calls. *)
Theorem TestRunner_reports_first_cell
    project adapter n i num g ex w cn res v cells w1 w2 :
  is_ephemeral_model n = false →
  outcome (compile_node adapter project n g (after_clock w)) = Return cn →
  execute_and_fetch_impl adapter (run_environment project)
    (dict_get cn "wrapped_sql") (dict_get cn "name") true
    (world (compile_node adapter project n g (after_clock w)))
    = (Return (res, [v :: cells]), w1) →
  release_connection_impl adapter (run_environment project)
    (dict_get n "name") w1 = (Return tt, w2) →
  safe_run (TestRunner project adapter n i num) g ex w =
  mkRun (Return (set_execution_time
                   (set_status (RunModelResult_init cn) v)
                   (time_sub (fst (time_time_impl w2))
                             (fst (time_time_impl w)))))
        (trace (compile_node adapter project n g (after_clock w))
         ++ [EExecuteAndFetch (run_environment project)
               (dict_get cn "wrapped_sql") (dict_get cn "name") true;
             EReleaseConnection (run_environment project)
               (dict_get n "name")])
        (snd (time_time_impl w2)).
Proof.
  intros He Hc Hfetch Hrel.
  set (self := TestRunner project adapter n i num).
  assert (Hx : run self cn ex g
                 (world (compile self g (after_clock w))) =
               mkRun (Return (set_status (RunModelResult_init cn) v))
                     [EExecuteAndFetch (run_environment project)
                        (dict_get cn "wrapped_sql") (dict_get cn "name")
                        true] w1).
  { unfold run. cbn [execute compile self TestRunner].
    unfold TestRunner_execute.
    by rewrite (bind_run _ _ _ _ _ _ (execute_test_run _ _ _ _ _ _ _ Hfetch)). }
  unfold after_clock in *.
  destruct (time_time_impl w) as [t0 w0] eqn:Ht. cbn [fst snd] in *.
  pose proof (safe_run_try_run_returns self g ex w0 cn _ Hc He
                (f_equal outcome Hx)) as Htry.
  cbn zeta in Htry. rewrite Hx in Htry. cbn [trace world] in Htry.
  rewrite (safe_run_eq self g ex w t0 w0 (Return tt) w2 Ht).
  - rewrite Htry. cbn [outcome trace world]. by rewrite <- app_assoc.
  - by rewrite Htry.
Qed.

(** X16.  A test whose query comes back with more than one row is fatal
    to the batch: the fault of [execute_test] is Python's own
    [RuntimeError], which is neither a catchable nor an internal fault,
    so after the log line and the release [safe_run] raises it again
    instead of returning a result in error. *)
Theorem TestRunner_bad_test_is_raised
    project adapter n i num g ex w cn res row0 row1 rest w1 :
  (∀ w', returns (fst (release_connection_impl adapter
                         (run_environment project) (dict_get n "name")
                         w'))) →
  is_ephemeral_model n = false →
  outcome (compile_node adapter project n g (after_clock w)) = Return cn →
  execute_and_fetch_impl adapter (run_environment project)
    (dict_get cn "wrapped_sql") (dict_get cn "name") true
    (world (compile_node adapter project n g (after_clock w)))
    = (Return (res, row0 :: row1 :: rest), w1) →
  outcome (safe_run (TestRunner project adapter n i num) g ex w) =
    Raise (RuntimeError
             (bad_test_message (dict_get cn "name")
                (length (row0 :: row1 :: rest)) (length row0)))
  ∧ trace (safe_run (TestRunner project adapter n i num) g ex w) =
      trace (compile_node adapter project n g (after_clock w))
      ++ [EExecuteAndFetch (run_environment project)
            (dict_get cn "wrapped_sql") (dict_get cn "name") true;
          ELoggerDebug
            (unhandled_error_line (TestRunner project adapter n i num)
               (RuntimeError
                  (bad_test_message (dict_get cn "name")
                     (length (row0 :: row1 :: rest)) (length row0))));
          EReleaseConnection (run_environment project) (dict_get n "name")].
Proof.
  intros Hrel He Hc Hfetch.
  set (self := TestRunner project adapter n i num) in *.
  assert (Hrel' : release_returns self) by exact Hrel.
  set (e := RuntimeError (bad_test_message (dict_get cn "name")
                            (length (row0 :: row1 :: rest)) (length row0))).
  assert (Hx : run self cn ex g
                 (world (compile self g (after_clock w))) =
               mkRun (Raise e)
                     [EExecuteAndFetch (run_environment project)
                        (dict_get cn "wrapped_sql") (dict_get cn "name")
                        true] w1).
  { unfold run. cbn [execute compile self TestRunner].
    unfold TestRunner_execute.
    rewrite (bind_raise _ _ _ e
               [EExecuteAndFetch (run_environment project)
                  (dict_get cn "wrapped_sql") (dict_get cn "name") true]
               w1); [done|].
    rewrite (execute_test_run _ _ _ _ _ _ _ Hfetch). by destruct row0. }
  pose proof (safe_run_try_run_fault self g ex _ cn e Hc He
                (f_equal outcome Hx)) as Htry.
  cbn zeta in Htry. rewrite Hx in Htry. cbn [trace world] in Htry.
  rewrite safe_run_except_unhandled in Htry by done.
  cbn [outcome trace world is_Exception e] in Htry.
  split.
  - apply safe_run_raises_of_try; [done|]. by rewrite Htry.
  - rewrite safe_run_trace, Htry. cbn [trace]. by rewrite <- app_assoc.
Qed.



(** What the guarded block returns is the fresh result with the compiled
    node, or the local result marked in error, or what [execute]
    returned. *)
Lemma safe_run_try_returns_shape self g ex w r :
  outcome (safe_run_try self g ex w) = Return r →
  (∃ n, r = set_node (RunModelResult_init (self_node self)) (Some n))
  ∨ (∃ n msg,
       r = set_status
             (set_error (set_node (RunModelResult_init (self_node self))
                                  (Some n)) (Some msg))
             (VStr "ERROR"))
  ∨ (∃ cn w', outcome (execute self cn ex g w') = Return r).
Proof.
  assert (Hexcept : ∀ result e w' r',
    outcome (safe_run_except self result e w') = Return r' →
    ∃ msg, r' = set_status (set_error result (Some msg)) (VStr "ERROR")).
  { intros result e w' r'. unfold safe_run_except.
    destruct (is_catchable e); [intros [= <-]; by eexists|].
    destruct (is_internal e); [intros [= <-]; by eexists|].
    destruct (is_Exception e); discriminate. }
  destruct (outcome (compile self g w)) as [cn|e] eqn:Hc.
  - destruct (is_ephemeral_model (self_node self)) eqn:He.
    + rewrite (safe_run_try_ephemeral _ _ _ _ _ Hc He). cbn [outcome].
      intros [= <-]. left. by eexists.
    + destruct (outcome (run self cn ex g (world (compile self g w))))
        as [r'|e] eqn:Hx.
      * rewrite (safe_run_try_run_returns _ _ _ _ _ _ Hc He Hx).
        cbn [outcome]. intros [= <-]. right. right. eauto.
      * rewrite (safe_run_try_run_fault _ _ _ _ _ _ Hc He Hx).
        cbn [outcome]. intros Hr. apply Hexcept in Hr as [msg ->].
        right. left. by exists cn, msg.
  - rewrite (safe_run_try_compile_fault _ _ _ _ _ Hc). cbn [outcome].
    intros Hr. apply Hexcept in Hr as [msg ->].
    right. left. by exists (self_node self), msg.
Qed.

(** What the [execute] methods of the classes return is a fresh result,
    with a status at most. *)
Lemma module_runner_execute_shape self cn ex g w r :
  module_runner self →
  outcome (execute self cn ex g w) = Return r →
  ∃ st, r = set_status (RunModelResult_init cn) st.
Proof.
  assert (Hmodel : ∀ project adapter,
    outcome (ModelRunner_execute project adapter cn ex g w) = Return r →
    ∃ st, r = set_status (RunModelResult_init cn) st).
  { intros project adapter H. unfold ModelRunner_execute in H.
    apply bind_returns_inv in H as (ctx & _ & H).
    destruct (get_materialization_macro _ _ _); [|discriminate].
    apply bind_returns_inv in H as (ctx' & _ & H).
    apply bind_returns_inv in H as (st & _ & H).
    cbn [outcome ret] in H. injection H as <-. by eexists. }
  destruct 1 as [project adapter n i num|project adapter n i num
                |project adapter n i num|project adapter n i num
                |project adapter n i num]; cbn [execute BaseRunner
                  CompileRunner ModelRunner TestRunner ArchiveRunner].
  - discriminate.
  - intros [= <-]. by exists VNone.
  - apply Hmodel.
  - unfold TestRunner_execute. intros H.
    apply bind_returns_inv in H as (st & _ & H).
    cbn [outcome ret] in H. injection H as <-. by eexists.
  - apply Hmodel.
Qed.

(** X18.  The flags of the results that the runners of the module hand
    out.  [safe_run] never returns a result that is skipped, and
    [on_skip] returns only such; neither ever sets the [failed] flag;
    a result of [safe_run] that is errored has the status ["ERROR"], and
    a result of [on_skip] is not errored and has no status. *)
Theorem module_runner_result_flags self g ex w :
  module_runner self →
  (∀ r, outcome (safe_run self g ex w) = Return r →
        skipped r = false ∧ failed r = None
        ∧ (errored r = true → status r = VStr "ERROR"))
  ∧ (∀ w' r, outcome (on_skip self w') = Return r →
        skipped r = true ∧ failed r = None
        ∧ errored r = false ∧ status r = VNone).
Proof.
  intros Hself. split.
  - intros r Hr.
    apply safe_run_returns_inv in Hr as (r0 & dt & Hr0 & ->).
    apply safe_run_try_returns_shape in Hr0
      as [(n & ->)|[(n & msg & ->)|(cn & w' & Hx)]]; [done|done|].
    apply (module_runner_execute_shape self cn ex g w' r0 Hself) in Hx
      as [st ->].
    done.
  - intros w' r. rewrite on_skip_returns. by intros [= <-].
Qed.

End FurtherProperties.

(** * The further properties on the test doubles *)

Import Faulty.



(** X3 on an adapter whose release faults, although the node compiled. *)
Lemma safe_run_release_fault_masks_witness :
  release_connection_impl (self_adapter release_faulty_runner)
    (self_profile release_faulty_runner)
    (dict_get (self_node release_faulty_runner) "name")
    (world (safe_run_try (dbt:=dbt_ok) release_faulty_runner graph0 tt 1))
    = (Raise db_error, 1)
  ∧ returns (outcome (safe_run_try (dbt:=dbt_ok) release_faulty_runner
                        graph0 tt 1))
  ∧ outcome (safe_run (dbt:=dbt_ok) release_faulty_runner graph0 tt 0)
    = Raise db_error.
Proof.
  assert (Hrel : release_connection_impl (self_adapter release_faulty_runner)
    (self_profile release_faulty_runner)
    (dict_get (self_node release_faulty_runner) "name")
    (world (safe_run_try (dbt:=dbt_ok) release_faulty_runner graph0 tt 1))
    = (Raise db_error, 1)) by (vm_compute; reflexivity).
  split; [exact Hrel|].
  split; [eexists; vm_compute; reflexivity|].
  exact (f_equal outcome
           (safe_run_release_fault_masks (dbt:=dbt_ok) release_faulty_runner
              graph0 tt 0 db_error 1 Hrel)).
Defined.

(** X4 on a compile-only runner: the clock of the doubles ticks once
    between the two readings. *)
Lemma safe_run_hands_result_through_witness :
  is_ephemeral_model (dbt:=dbt_ok) (self_node ok_compile_runner) = false
  ∧ outcome (compile ok_compile_runner graph0 1) = Return node_a
  ∧ outcome (run ok_compile_runner node_a tt graph0 1)
    = Return (RunModelResult_init (dbt:=dbt_ok) node_a)
  ∧ outcome (safe_run (dbt:=dbt_ok) ok_compile_runner graph0 tt 0) =
    Return (set_execution_time (RunModelResult_init (dbt:=dbt_ok) node_a)
              1%Z).
Proof.
  assert (He : is_ephemeral_model (dbt:=dbt_ok) (self_node ok_compile_runner)
               = false) by (vm_compute; reflexivity).
  assert (Hc : outcome (compile ok_compile_runner graph0 1) = Return node_a)
    by (vm_compute; reflexivity).
  split; [exact He|]. split; [exact Hc|]. split; [reflexivity|].
  rewrite (safe_run_hands_result_through (dbt:=dbt_ok) ok_compile_runner
             graph0 tt 0 node_a (RunModelResult_init (dbt:=dbt_ok) node_a) 1
             He Hc eq_refl); [|vm_compute; reflexivity].
  reflexivity.
Defined.


(** X6 on the graph of three models and its reverse. *)
Lemma get_model_schemas_order_independent_witness :
  (∀ n, n ∈ map snd (nodes graph_xyz) ↔ n ∈ map snd (nodes graph_zyx))
  ∧ get_model_schemas (dbt:=dbt_ok) graph_xyz 0
    = get_model_schemas (dbt:=dbt_ok) graph_zyx 0.
Proof.
  assert (Hsame : ∀ n, n ∈ map snd (nodes graph_xyz)
                       ↔ n ∈ map snd (nodes graph_zyx)).
  { intros n. simpl. rewrite !elem_of_cons. tauto. }
  split; [exact Hsame|].
  exact (get_model_schemas_order_independent (dbt:=dbt_ok) graph_xyz
           graph_zyx 0 Hsame).
Defined.

(** X7 on an adapter that cannot list the schemas: [before_run] asks,
    faults, and that is all. *)
Lemma before_run_creates_schemas_first_witness :
  outcome (create_schemas (dbt:=dbt_ok) project0
             (adapter_schemas_faulty db_error) graph_two_hooks 0)
    = Raise db_error
  ∧ ModelRunner_before_run (dbt:=dbt_ok) project0
      (adapter_schemas_faulty db_error) graph_two_hooks 0
    = mkRun (Raise db_error)
            [EGetExistingSchemas (run_environment project0)] 0.
Proof.
  assert (Hc : outcome (create_schemas (dbt:=dbt_ok) project0
                          (adapter_schemas_faulty db_error)
                          graph_two_hooks 0) = Raise db_error)
    by (vm_compute; reflexivity).
  split; [exact Hc|].
  destruct (proj1 (before_run_creates_schemas_first (dbt:=dbt_ok) project0
                     (adapter_schemas_faulty db_error) graph_two_hooks 0)
              db_error Hc) as [-> _].
  vm_compute. reflexivity.
Defined.

(** X8 on an adapter that cannot clear the transaction: the database
    fault is logged and raised. *)
Lemma safe_run_hooks_swallows_nothing_witness :
  outcome (run_hooks (dbt:=dbt_ok) project0 (adapter_clear_faulty db_error)
             graph_two_hooks (VStr "on-run-start") 0) = Raise db_error
  ∧ outcome (safe_run_hooks (dbt:=dbt_ok) project0
               (adapter_clear_faulty db_error) graph_two_hooks
               (VStr "on-run-start") 0) = Raise db_error
  ∧ trace (safe_run_hooks (dbt:=dbt_ok) project0
             (adapter_clear_faulty db_error) graph_two_hooks
             (VStr "on-run-start") 0) =
    [EClearTransaction (run_environment project0);
     ELoggerInfo "Database error while running on-run-start"].
Proof.
  assert (Hr : outcome (run_hooks (dbt:=dbt_ok) project0
                          (adapter_clear_faulty db_error) graph_two_hooks
                          (VStr "on-run-start") 0) = Raise db_error)
    by (vm_compute; reflexivity).
  destruct (safe_run_hooks_swallows_nothing (dbt:=dbt_ok) project0
              (adapter_clear_faulty db_error) graph_two_hooks
              (VStr "on-run-start") 0)
    as (Hout & _ & log & Htr & _ & _ & Hlog).
  split; [exact Hr|]. split; [by rewrite Hout|].
  rewrite Htr, (Hlog "connection lost" None Hr). vm_compute. reflexivity.
Defined.

(** X10 on the graph with two hooks. *)
Lemma run_hooks_one_statement_per_hook_witness :
  STRICT_MODE (Dbt:=dbt_ok) = false
  ∧ clear_transaction_impl (adapter_ok [] []) (run_environment project0) 0
    = (Return (VStr "master"), 0)
  ∧ outcome (run_hooks_compile (dbt:=dbt_ok) (adapter_ok [] []) project0
               graph_two_hooks
               (get_nodes_by_tags (Dbt:=dbt_ok)
                  (map snd (nodes graph_two_hooks)) [VStr "on-run-start"]
                  (NodeType_Operation (Dbt:=dbt_ok))) [] 0)
    = Return [hook1_dict; hook2_dict]
  ∧ outcome (run_hooks (dbt:=dbt_ok) project0 (adapter_ok [] [])
               graph_two_hooks (VStr "on-run-start") 0) = Return tt
  ∧ List.filter is_statement
      (trace (run_hooks (dbt:=dbt_ok) project0 (adapter_ok [] [])
                graph_two_hooks (VStr "on-run-start") 0)) =
    [EExecuteOne (run_environment project0) (VStr "grant select on a")
                 (VStr "master") false;
     EExecuteOne (run_environment project0) (VStr "grant select on b")
                 (VStr "master") false].
Proof.
  assert (Hc : outcome (run_hooks_compile (dbt:=dbt_ok) (adapter_ok [] [])
                 project0 graph_two_hooks
                 (get_nodes_by_tags (Dbt:=dbt_ok)
                    (map snd (nodes graph_two_hooks)) [VStr "on-run-start"]
                    (NodeType_Operation (Dbt:=dbt_ok))) [] 0)
               = Return [hook1_dict; hook2_dict])
    by (vm_compute; reflexivity).
  destruct (run_hooks_one_statement_per_hook (dbt:=dbt_ok) project0
              (adapter_ok [] []) graph_two_hooks (VStr "on-run-start") 0
              (VStr "master") 0 [hook1_dict; hook2_dict]
              eq_refl eq_refl Hc
              (λ sql w', ex_intro _ tt eq_refl)
              (λ w', ex_intro _ tt eq_refl))
    as (Hout & Hst & _).
  split; [reflexivity|]. split; [reflexivity|]. split; [exact Hc|].
  split; [exact Hout|]. rewrite Hst. vm_compute. reflexivity.
Defined.

(** X11 on an adapter that rejects the statement of the first hook: the
    second hook is not sent, and nothing is released. *)
Lemma run_hooks_stops_at_faulting_statement_witness :
  outcome (run_hooks (dbt:=dbt_ok) project0
             (adapter_statement_faulty (VStr "grant select on a") db_error)
             graph_two_hooks (VStr "on-run-start") 0) = Raise db_error
  ∧ List.filter is_statement
      (trace (run_hooks (dbt:=dbt_ok) project0
                (adapter_statement_faulty (VStr "grant select on a")
                   db_error)
                graph_two_hooks (VStr "on-run-start") 0)) =
    [EExecuteOne (run_environment project0) (VStr "grant select on a")
                 (VStr "master") false]
  ∧ last (trace (run_hooks (dbt:=dbt_ok) project0
                   (adapter_statement_faulty (VStr "grant select on a")
                      db_error)
                   graph_two_hooks (VStr "on-run-start") 0)) =
    Some (EExecuteOne (run_environment project0)
            (VStr "grant select on a") (VStr "master") false).
Proof.
  assert (Hc : outcome (run_hooks_compile (dbt:=dbt_ok)
                 (adapter_statement_faulty (VStr "grant select on a")
                    db_error)
                 project0 graph_two_hooks
                 (get_nodes_by_tags (Dbt:=dbt_ok)
                    (map snd (nodes graph_two_hooks)) [VStr "on-run-start"]
                    (NodeType_Operation (Dbt:=dbt_ok))) [] 0)
               = Return ([] ++ hook1_dict :: [hook2_dict]))
    by (vm_compute; reflexivity).
  destruct (run_hooks_stops_at_faulting_statement (dbt:=dbt_ok) project0
              (adapter_statement_faulty (VStr "grant select on a") db_error)
              graph_two_hooks (VStr "on-run-start") 0 (VStr "master") 0
              [] hook1_dict [hook2_dict] db_error
              eq_refl eq_refl Hc)
    as (Hout & Hst & Hlast).
  - intros h w' Hh. by apply elem_of_nil in Hh.
  - intros w'. by eexists.
  - intros w'. vm_compute. reflexivity.
  - split; [exact Hout|]. split; [|rewrite Hlast; vm_compute; reflexivity].
    rewrite Hst. vm_compute. reflexivity.
Defined.

(** X12 in strict mode, with a validation that rejects the second hook:
    the first hook is validated and sent, the second is validated and
    not sent. *)
Lemma run_hooks_validates_in_strict_mode_witness :
  STRICT_MODE (Dbt:=dbt_strict (VStr "grant select on b") value_error)
    = true
  ∧ validated_before
      (trace (run_hooks
                (dbt:=dbt_strict (VStr "grant select on b") value_error)
                project0 (adapter_ok [] []) graph_two_hooks
                (VStr "on-run-start") 0))
  ∧ List.filter (λ ev, is_validate ev || is_statement ev)
      (trace (run_hooks
                (dbt:=dbt_strict (VStr "grant select on b") value_error)
                project0 (adapter_ok [] []) graph_two_hooks
                (VStr "on-run-start") 0)) =
    [EValidateHook (VStr "grant select on a");
     EExecuteOne (run_environment project0) (VStr "grant select on a")
                 (VStr "master") false;
     EValidateHook (VStr "grant select on b")].
Proof.
  split; [reflexivity|]. split; [|vm_compute; reflexivity].
  exact (proj1 (proj1 (run_hooks_validates_in_strict_mode
                         (dbt:=dbt_strict (VStr "grant select on b")
                                 value_error)
                         project0 (adapter_ok [] []) graph_two_hooks
                         (VStr "on-run-start") 0) eq_refl)).
Defined.

(** X13 on a model with injected SQL, which is written, and on the same
    node as an archive, which is not. *)
Lemma compile_node_writes_injected_sql_witness :
  Compiler_compile_node (Dbt:=dbt_ok) project0 node_sql graph0 0
    = (Return node_sql, 0)
  ∧ compile_node (dbt:=dbt_ok) (adapter_ok [] []) project0 node_sql graph0 0
    = mkRun (Return (<["build_path" := VStr "target/compiled/x.sql"]>
                       (<["wrapped_sql" := VStr "select * from a"]>
                          node_sql)))
            [ECompilerCompileNode node_sql;
             EGetRendered (VStr "select * from a");
             ELoggerDebug ("Writing injected SQL for node " +:+ dquote
                           +:+ "model.a" +:+ dquote);
             EWriteNode (<["wrapped_sql" := VStr "select * from a"]>
                           node_sql)
                        (VStr "target") (VStr "select 1")]
            0
  ∧ compile_node (dbt:=dbt_ok) (adapter_ok [] []) project0 node_archive
      graph0 0
    = mkRun (Return (<["wrapped_sql" := VStr "select * from a"]>
                       node_archive))
            [ECompilerCompileNode node_archive;
             EGetRendered (VStr "select * from a")]
            0.
Proof.
  split; [reflexivity|]. split.
  - destruct (compile_node_writes_injected_sql (dbt:=dbt_ok)
                (adapter_ok [] []) project0 node_sql graph0 0 node_sql 0
                (VStr "select * from a") 0 eq_refl)
      as (_ & _ & Hwrite); [vm_compute; reflexivity|].
    rewrite (Hwrite (VStr "select 1") (VStr "model.a")
               (VStr "target/compiled/x.sql") 0);
      vm_compute; reflexivity.
  - destruct (compile_node_writes_injected_sql (dbt:=dbt_ok)
                (adapter_ok [] []) project0 node_archive graph0 0
                node_archive 0 (VStr "select * from a") 0 eq_refl)
      as (_ & Hskip & _); [vm_compute; reflexivity|].
    rewrite (Hskip (VStr "select 1")); [vm_compute; reflexivity
                                       |vm_compute; reflexivity|].
    right. vm_compute. reflexivity.
Defined.

(** X14 on the same model. *)
Lemma compile_node_keeps_other_entries_witness :
  outcome (compile_node (dbt:=dbt_ok) (adapter_ok [] []) project0 node_sql
             graph0 0)
    = Return (<["build_path" := VStr "target/compiled/x.sql"]> node_sql)
  ∧ ∃ n1 w1 sql,
      Compiler_compile_node (Dbt:=dbt_ok) project0 node_sql graph0 0
        = (Return n1, w1)
      ∧ fst (get_rendered (Dbt:=dbt_ok) (dict_get n1 "wrapped_sql")
               (node_context (dbt:=dbt_ok) (adapter_ok [] []) project0 n1)
               w1) = Return sql
      ∧ (<["build_path" := VStr "target/compiled/x.sql"]> node_sql : Node)
          !! "wrapped_sql" = Some sql
      ∧ (<["build_path" := VStr "target/compiled/x.sql"]> node_sql : Node)
          !! "injected_sql" = n1 !! "injected_sql"
      ∧ is_Some ((<["build_path" := VStr "target/compiled/x.sql"]> node_sql
                  : Node) !! "injected_sql")
      ∧ ∀ k, k ≠ "wrapped_sql" → k ≠ "build_path" →
             (<["build_path" := VStr "target/compiled/x.sql"]> node_sql
              : Node) !! k = n1 !! k.
Proof.
  assert (Hc : outcome (compile_node (dbt:=dbt_ok) (adapter_ok [] [])
                          project0 node_sql graph0 0)
               = Return (<["build_path" := VStr "target/compiled/x.sql"]>
                           node_sql)) by (vm_compute; reflexivity).
  split; [exact Hc|].
  exact (compile_node_keeps_other_entries (dbt:=dbt_ok) (adapter_ok [] [])
           project0 node_sql graph0 0 _ Hc).
Defined.

(** X15 on a test whose query returns the single cell 0. *)
Lemma TestRunner_reports_first_cell_witness :
  is_ephemeral_model (dbt:=dbt_ok) node_t = false
  ∧ outcome (compile_node (dbt:=dbt_ok) (adapter_ok [] [[VInt 0]]) project0
               node_t graph0 1) = Return node_t
  ∧ outcome (safe_run (dbt:=dbt_ok) one_row_runner graph0 tt 0) =
    Return (set_execution_time
              (set_status (RunModelResult_init (dbt:=dbt_ok) node_t)
                          (VInt 0)) 1%Z)
  ∧ trace (safe_run (dbt:=dbt_ok) one_row_runner graph0 tt 0) =
    [ECompilerCompileNode node_t;
     EGetRendered (VStr "select count(*) from a");
     EExecuteAndFetch (run_environment project0)
       (VStr "select count(*) from a") (VStr "t") true;
     EReleaseConnection (run_environment project0) (VStr "t")].
Proof.
  assert (He : is_ephemeral_model (dbt:=dbt_ok) node_t = false)
    by (vm_compute; reflexivity).
  assert (Hc : outcome (compile_node (dbt:=dbt_ok)
                          (adapter_ok [] [[VInt 0]]) project0 node_t
                          graph0 1) = Return node_t)
    by (vm_compute; reflexivity).
  pose proof (TestRunner_reports_first_cell (dbt:=dbt_ok) project0
                (adapter_ok [] [[VInt 0]]) node_t 0 1 graph0 tt 0 node_t
                (VStr "SELECT") (VInt 0) [] 1 1 He Hc eq_refl eq_refl)
    as Hrun.
  split; [exact He|]. split; [exact Hc|].
  unfold one_row_runner. rewrite Hrun.
  split; vm_compute; reflexivity.
Defined.

(** X16 on a test whose query returns two rows. *)
Lemma TestRunner_bad_test_is_raised_witness :
  is_ephemeral_model (dbt:=dbt_ok) node_t = false
  ∧ outcome (compile_node (dbt:=dbt_ok)
               (adapter_ok [] [[VInt 3]; [VInt 4]]) project0 node_t
               graph0 1) = Return node_t
  ∧ outcome (safe_run (dbt:=dbt_ok) two_rows_runner graph0 tt 0) =
    Raise (RuntimeError "Bad test t: Returned 2 rows and 1 cols")
  ∧ trace (safe_run (dbt:=dbt_ok) two_rows_runner graph0 tt 0) =
    [ECompilerCompileNode node_t;
     EGetRendered (VStr "select count(*) from a");
     EExecuteAndFetch (run_environment project0)
       (VStr "select count(*) from a") (VStr "t") true;
     ELoggerDebug ("Unhandled error while executing None" +:+ nl
                   +:+ "Bad test t: Returned 2 rows and 1 cols");
     EReleaseConnection (run_environment project0) (VStr "t")].
Proof.
  assert (He : is_ephemeral_model (dbt:=dbt_ok) node_t = false)
    by (vm_compute; reflexivity).
  assert (Hc : outcome (compile_node (dbt:=dbt_ok)
                          (adapter_ok [] [[VInt 3]; [VInt 4]]) project0
                          node_t graph0 1) = Return node_t)
    by (vm_compute; reflexivity).
  destruct (TestRunner_bad_test_is_raised (dbt:=dbt_ok) (Existing:=unit)
              project0 (adapter_ok [] [[VInt 3]; [VInt 4]]) node_t 0 1
              graph0 tt 0 node_t (VStr "SELECT") [VInt 3] [VInt 4] [] 1
              (λ w', ex_intro _ tt eq_refl) He Hc eq_refl)
    as [Hout Htr].
  split; [exact He|]. split; [exact Hc|].
  unfold two_rows_runner. rewrite Hout, Htr.
  split; vm_compute; reflexivity.
Defined.

(** X18 on a compile-only runner. *)
Lemma module_runner_result_flags_witness :
  module_runner (dbt:=dbt_ok) ok_compile_runner
  ∧ (∀ r, outcome (safe_run (dbt:=dbt_ok) ok_compile_runner graph0 tt 0)
            = Return r →
          skipped r = false ∧ failed r = None
          ∧ (errored r = true → status r = VStr "ERROR"))
  ∧ (∀ w' r, outcome (on_skip (dbt:=dbt_ok) ok_compile_runner w')
               = Return r →
          skipped r = true ∧ failed r = None
          ∧ errored r = false ∧ status r = VNone).
Proof.
  assert (Hm : module_runner (dbt:=dbt_ok) ok_compile_runner).
  { apply module_CompileRunner. }
  split; [exact Hm|].
  exact (module_runner_result_flags (dbt:=dbt_ok) ok_compile_runner graph0
           tt 0 Hm).
Defined.
